(** * cs_media_contracts: supplier lookup, contract paging and media filter

    A shallow embedding of [cs_media_contracts.py].  The module talks to the
    "Clearspending" REST API with [requests], loads two reference code lists
    from JSON files and walks dynamically typed JSON data.  The embedding
    keeps these three aspects explicit:

    - JSON / Python values are the inductive type [pyval];
    - Python exceptions are the [Raise] branch of [outcome];
    - the network, the file system and standard output live in a [world]
      that is threaded through a small state-and-exception monad [M].

    Python 3 semantics is assumed throughout ([/] is true division and
    [math.ceil] returns an [int]).  A float in the data is a finite double,
    kept as its exact rational value; division rounds to the nearest double
    (ties to even) and overflows as in Python.  [nan] and infinite values in
    the data are outside the model.  Text is UTF-8; a substring test on
    UTF-8 bytes agrees with the test on code points. *)

From Stdlib Require Import List String Ascii Bool Arith ZArith QArith Qround Lia.
From Stdlib Require Import DecimalString.
Import ListNotations.

Set Warnings "-register-all".

#[local] Open Scope string_scope.
#[local] Open Scope Z_scope.

(** ** Values and exceptions *)

Inductive pyval : Type :=
| PNone
| PBool (b : bool)
| PInt (z : Z)
| PFloat (q : Q)
| PStr (s : string)
| PList (l : list pyval)
| PDict (d : list (string * pyval)).

(** Every exception below is a subclass of Python's [Exception], hence is
    caught by [except Exception].  [RequestException] stands for everything
    [requests.get] raises (connection errors, timeouts, ...); [OSError] for
    a reference file that cannot be opened. *)
Inductive exn : Type :=
| KeyError (k : string)
| IndexError
| TypeError
| AttributeError
| ZeroDivisionError
| OverflowError
| ValueError
| RequestException (msg : string)
| OSError (msg : string).

Inductive outcome (A : Type) : Type :=
| Ok (a : A)
| Raise (e : exn).

Arguments Ok {A} a.
Arguments Raise {A} e.

Definition obind {A B} (o : outcome A) (k : A -> outcome B) : outcome B :=
  match o with
  | Ok a => k a
  | Raise e => Raise e
  end.

Declare Scope outcome_scope.
Delimit Scope outcome_scope with outcome.
Notation "x <- c ;; k" := (obind c (fun x => k))
  (at level 100, c at next level, right associativity) : outcome_scope.

(** ** Operations on values *)

(** A JSON object is kept as an association list in insertion order; keys
    are unique, so the first binding is the binding. *)
Fixpoint lookup (k : string) (d : list (string * pyval)) : option pyval :=
  match d with
  | [] => None
  | (k', v) :: d' => if String.eqb k k' then Some v else lookup k d'
  end.

(** The characters of a text: a byte that starts a UTF-8 sequence together
    with the continuation bytes that follow it. *)
Definition is_continuation (c : ascii) : bool :=
  (128 <=? nat_of_ascii c)%nat && (nat_of_ascii c <? 192)%nat.

Fixpoint code_points (s : string) : list string :=
  match s with
  | EmptyString => []
  | String c s' =>
      let rest := code_points s' in
      match s' with
      | String c' _ =>
          match rest with
          | g :: gs =>
              if is_continuation c' then String c g :: gs
              else String c EmptyString :: rest
          | [] => [String c EmptyString]
          end
      | EmptyString => [String c EmptyString]
      end
  end.

(** [v[k]] with a string key. *)
Definition py_getitem (v : pyval) (k : string) : outcome pyval :=
  match v with
  | PDict d => match lookup k d with
               | Some x => Ok x
               | None => Raise (KeyError k)
               end
  | _ => Raise TypeError
  end.

(** [v[0]]. *)
Definition py_first (v : pyval) : outcome pyval :=
  match v with
  | PList l => match l with
               | x :: _ => Ok x
               | [] => Raise IndexError
               end
  | PStr s => match code_points s with
              | c :: _ => Ok (PStr c)
              | [] => Raise IndexError
              end
  | PDict _ => Raise (KeyError "0")
  | _ => Raise TypeError
  end.

(** [v.get(k, default)]: only dictionaries have a [get] method. *)
Definition py_get (v : pyval) (k : string) (default : pyval) : outcome pyval :=
  match v with
  | PDict d => match lookup k d with
               | Some x => Ok x
               | None => Ok default
               end
  | _ => Raise AttributeError
  end.

(** Numbers: [bool] is a subtype of [int]. *)
Definition py_number (v : pyval) : option Q :=
  match v with
  | PBool b => Some (inject_Z (if b then 1 else 0))
  | PInt z => Some (inject_Z z)
  | PFloat q => Some q
  | _ => None
  end.

(** Python's [==] on JSON-shaped values. *)
Fixpoint py_eq (a b : pyval) {struct a} : bool :=
  match a with
  | PNone => match b with PNone => true | _ => false end
  | PBool _ | PInt _ | PFloat _ =>
      match py_number a, py_number b with
      | Some x, Some y => Qeq_bool x y
      | _, _ => false
      end
  | PStr s => match b with PStr t => String.eqb s t | _ => false end
  | PList l =>
      match b with
      | PList m =>
          (fix go (l m : list pyval) {struct l} : bool :=
             match l, m with
             | [], [] => true
             | x :: l', y :: m' => py_eq x y && go l' m'
             | _, _ => false
             end) l m
      | _ => false
      end
  | PDict d =>
      match b with
      | PDict e =>
          Nat.eqb (List.length d) (List.length e) &&
          (fix go (d : list (string * pyval)) : bool :=
             match d with
             | [] => true
             | (k, v) :: d' =>
                 match lookup k e with
                 | Some v' => py_eq v v'
                 | None => false
                 end && go d'
             end) d
      | _ => false
      end
  end.

(** [needle in hay] for two strings. *)
Fixpoint str_contains (needle hay : string) : bool :=
  if String.prefix needle hay then true
  else match hay with
       | EmptyString => false
       | String _ hay' => str_contains needle hay'
       end.

(** Lists and dictionaries cannot be hashed. *)
Definition hashable (v : pyval) : bool :=
  match v with
  | PList _ | PDict _ => false
  | _ => true
  end.

(** [x in c]. *)
Definition py_in (x c : pyval) : outcome bool :=
  match c with
  | PList l => Ok (existsb (py_eq x) l)
  | PDict d =>
      if hashable x then
        Ok (match x with
            | PStr k => match lookup k d with Some _ => true | None => false end
            | _ => false
            end)
      else Raise TypeError
  | PStr hay =>
      match x with
      | PStr needle => Ok (str_contains needle hay)
      | _ => Raise TypeError
      end
  | _ => Raise TypeError
  end.

(** The items a [for] loop visits.  Iterating a string yields its
    characters; iterating a dictionary yields its keys. *)
Definition py_iter (v : pyval) : outcome (list pyval) :=
  match v with
  | PList l => Ok l
  | PStr s => Ok (map PStr (code_points s))
  | PDict d => Ok (map (fun kv => PStr (fst kv)) d)
  | _ => Raise TypeError
  end.

(** [len(v)]. *)
Definition py_len (v : pyval) : outcome Z :=
  match v with
  | PList l => Ok (Z.of_nat (List.length l))
  | PStr s => Ok (Z.of_nat (List.length (code_points s)))
  | PDict d => Ok (Z.of_nat (List.length d))
  | _ => Raise TypeError
  end.

(** [a + b] with [a] a string. *)
Definition py_str_add (a : string) (b : pyval) : outcome pyval :=
  match b with
  | PStr s => Ok (PStr (a ++ s))
  | _ => Raise TypeError
  end.

(** *** Doubles

    A double has 53 bits of precision, its least exponent is -1074 and a
    magnitude that rounds to [2 ^ 1024] or more is infinite. *)

(** What a float operation yields: a finite double, by its value, or an
    infinity (of either sign). *)
Inductive pyfloat : Type :=
| Finite (q : Q)
| Infinite.

(** The fraction [(n / d) / 2 ^ e], numerator and denominator. *)
Definition scaled (n d e : Z) : Z * Z :=
  (n * 2 ^ Z.max 0 (- e), d * 2 ^ Z.max 0 e).

(** [floor (log2 (n / d))] for positive [n] and [d]. *)
Definition binade (n d : Z) : Z :=
  let l := Z.log2 n - Z.log2 d in
  let (N, D) := scaled n d l in
  if D <=? N then l else l - 1.

(** [N / D] rounded to the nearest integer, ties to even. *)
Definition round_half_even (N D : Z) : Z :=
  let m := N / D in
  match 2 * (N mod D) ?= D with
  | Lt => m
  | Gt => m + 1
  | Eq => if Z.even m then m else m + 1
  end.

(** The double nearest to [n / d], for positive [n] and [d]. *)
Definition round_magnitude (n d : Z) : pyfloat :=
  let e := Z.max (binade n d - 52) (-1074) in
  let (N, D) := scaled n d e in
  let m := round_half_even N D in
  if 2 ^ 1024 <=? m * 2 ^ Z.max 0 e then Infinite
  else Finite (m * 2 ^ Z.max 0 e # Z.to_pos (2 ^ Z.max 0 (- e))).

(** The double nearest to a rational. *)
Definition round_double (q : Q) : pyfloat :=
  match Qnum q with
  | 0 => Finite 0
  | Z.pos n => round_magnitude (Z.pos n) (Z.pos (Qden q))
  | Z.neg n =>
      match round_magnitude (Z.pos n) (Z.pos (Qden q)) with
      | Finite r => Finite (- r)
      | Infinite => Infinite
      end
  end.

(** [bool] and [int] operands. *)
Definition is_int (v : pyval) : bool :=
  match v with
  | PBool _ | PInt _ => true
  | _ => false
  end.

(** The conversion of an operand to a double, as the float division does
    it: an integer too large for a double raises. *)
Definition to_double (v : pyval) (x : Q) : outcome Q :=
  if is_int v then
    match round_double x with
    | Finite r => Ok r
    | Infinite => Raise OverflowError
    end
  else Ok x.

(** [a / b]: true division.  Between two integers the exact quotient is
    rounded once, and a quotient too large for a double raises.  With a
    float on either side both operands are made doubles first, and the
    quotient of two doubles may be infinite without raising. *)
Definition py_truediv (a b : pyval) : outcome pyfloat :=
  match py_number a, py_number b with
  | Some x, Some y =>
      if is_int a && is_int b then
        if Qeq_bool y 0 then Raise ZeroDivisionError
        else match round_double (x / y) with
             | Finite r => Ok (Finite r)
             | Infinite => Raise OverflowError
             end
      else
        (x' <- to_double a x ;;
         y' <- to_double b y ;;
         if Qeq_bool y' 0 then Raise ZeroDivisionError
         else Ok (round_double (x' / y')))%outcome
  | _, _ => Raise TypeError
  end.

(** [math.ceil]: an infinity cannot be made an integer. *)
Definition math_ceil (f : pyfloat) : outcome Z :=
  match f with
  | Finite q => Ok (Qceiling q)
  | Infinite => Raise OverflowError
  end.

(** ['{}'.format(n)] for an integer of a [range]. *)
Definition format_int (n : Z) : string :=
  NilZero.string_of_int (Z.to_int n).

(** [range(lo, hi)]. *)
Definition py_range (lo hi : Z) : list Z :=
  map (fun i => lo + Z.of_nat i) (seq 0 (Z.to_nat (hi - lo))).

(** ** The world: network, files, standard output *)

(** What [requests.get] hands back: the status code and what [.json()]
    yields (a decoding failure raises). *)
Record response : Type := mkResponse {
  status_code : Z;
  json : outcome pyval
}.

(** [remote] answers a request given the earlier requests of the run, so a
    server whose data changes between requests is covered.  [files] is what
    [json.load] returns for a path.  [sent] logs the requested URLs and
    [printed] what [print] wrote. *)
Record world : Type := mkWorld {
  remote : list string -> string -> outcome response;
  files : string -> outcome pyval;
  sent : list string;
  printed : list exn
}.

Definition M (A : Type) : Type := world -> outcome A * world.

Definition ret {A} (a : A) : M A := fun w => (Ok a, w).

Definition bind {A B} (m : M A) (k : A -> M B) : M B :=
  fun w => match m w with
           | (Ok a, w') => k a w'
           | (Raise e, w') => (Raise e, w')
           end.

Definition lift {A} (o : outcome A) : M A := fun w => (o, w).

(** [try: body except Exception as e: handler]. *)
Definition try_except {A} (body : M A) (handler : exn -> M A) : M A :=
  fun w => match body w with
           | (Ok a, w') => (Ok a, w')
           | (Raise e, w') => handler e w'
           end.

Declare Scope py_scope.
Delimit Scope py_scope with py.
Notation "x <- c ;; k" := (bind c (fun x => k))
  (at level 100, c at next level, right associativity) : py_scope.
Notation "c ;;; k" := (bind c (fun _ => k))
  (at level 100, right associativity) : py_scope.

Definition log_request (url : string) (w : world) : world :=
  mkWorld (remote w) (files w) (sent w ++ [url]) (printed w).

Definition log_print (e : exn) (w : world) : world :=
  mkWorld (remote w) (files w) (sent w) (printed w ++ [e]).

Definition requests_get (url : string) : M response :=
  fun w => (remote w (sent w) url, log_request url w).

Definition print (e : exn) : M unit :=
  fun w => (Ok tt, log_print e w).

Definition load_json (source : string) : M pyval :=
  fun w => (files w source, w).

(** ** Constants of the module *)

Definition CONTRACT_URL : string := "contract_url".
Definition CONTRACT_PRICE : string := "contract_price".
Definition PRODUCT_DESCRIPTION : string := "product_description".
Definition PRODUCT_PRICE : string := "product_price".
Definition NUM_PRODUCTS : string := "num_products".

Definition clearspending_base : string := "https://clearspending.ru/contract/".

Definition not_found_phrase : string := "Не могу найти поставщика с ИНН".
Definition something_went_wrong : string := "Что-то пошло не так".
Definition placeholder_name : string := "Имярек".

(** [inn] is the text that ['{}'.format(inn)] inserts. *)
Definition supplier_url (inn : string) : string :=
  "http://openapi.clearspending.ru/restapi/v3/suppliers/get/?inn=" ++ inn.

Definition contracts_url (inn : string) : string :=
  "http://openapi.clearspending.ru/restapi/v3/contracts/select/?supplierinn="
  ++ inn ++ "&sort=-signDate".

Definition page_url (url : string) (page : Z) : string :=
  url ++ "&page=" ++ format_int page.

Definition not_found_message (inn : string) : string :=
  not_found_phrase ++ " " ++ inn.

(** ** get_supplier_name *)

(** [data['suppliers']['data'][0].get('allNames', [u'Имярек'])[0]] *)
Definition first_name (data : pyval) : outcome pyval :=
  (suppliers <- py_getitem data "suppliers" ;;
   rows <- py_getitem suppliers "data" ;;
   row <- py_first rows ;;
   names <- py_get row "allNames" (PList [PStr placeholder_name]) ;;
   py_first names)%outcome.

(** The body of the [try] block. *)
Definition supplier_name_body (inn : string) : M pyval :=
  (response <- requests_get (supplier_url inn) ;;
   if status_code response =? 404
   then ret (PStr (not_found_message inn))
   else
     data <- lift (json response) ;;
     name <- lift (first_name data) ;;
     ret name)%py.

(** The handler prints the exception; the function then falls off its end
    and returns [None]. *)
Definition get_supplier_name (inn : string) : M pyval :=
  try_except (supplier_name_body inn)
             (fun e => (print e ;;; ret PNone)%py).

(** ** filter_media_contracts *)

(** Lines 106-109: the two codes of a product and the membership test. *)
Definition product_matches (okpd_ref okpd2_ref product : pyval) : outcome bool :=
  (o <- py_get product "OKPD" (PDict []) ;;
   okpd <- py_get o "code" PNone ;;
   o2 <- py_get product "OKPD2" (PDict []) ;;
   okpd2 <- py_get o2 "code" PNone ;;
   hit <- py_in okpd okpd_ref ;;
   if hit : bool then Ok true else py_in okpd2 okpd2_ref)%outcome.

(** Lines 111-121: the dictionary appended for a matching product. *)
Definition media_contract (contract product products : pyval) : outcome pyval :=
  (contract_price <- py_get contract "price" (PStr "-") ;;
   product_price <- py_get product "sum" (PStr "-") ;;
   product_description <- py_get product "name" (PStr "-") ;;
   regnum <- py_getitem contract "regNum" ;;
   contract_url <- py_str_add clearspending_base regnum ;;
   num_products <- py_len products ;;
   Ok (PDict [(CONTRACT_URL, contract_url);
              (CONTRACT_PRICE, contract_price);
              (PRODUCT_DESCRIPTION, product_description);
              (PRODUCT_PRICE, product_price);
              (NUM_PRODUCTS, PInt num_products)]))%outcome.

(** [for product in products: ...]; [Some] is the [append] followed by
    [break], [None] is the loop running out of products. *)
Fixpoint scan_products (okpd_ref okpd2_ref contract products : pyval)
    (todo : list pyval) : outcome (option pyval) :=
  match todo with
  | [] => Ok None
  | product :: todo' =>
      (hit <- product_matches okpd_ref okpd2_ref product ;;
       if hit : bool
       then (entry <- media_contract contract product products ;;
             Ok (Some entry))
       else scan_products okpd_ref okpd2_ref contract products todo')%outcome
  end.

(** The body of the outer loop: what one contract adds, if anything. *)
Definition scan_contract (okpd_ref okpd2_ref contract : pyval)
  : outcome (option pyval) :=
  (products <- py_getitem contract "products" ;;
   items <- py_iter products ;;
   scan_products okpd_ref okpd2_ref contract products items)%outcome.

(** [for contract in contracts: ...] with the accumulator [media_contracts]. *)
Fixpoint scan_contracts (okpd_ref okpd2_ref : pyval) (todo : list pyval)
    (media_contracts : list pyval) : outcome (list pyval) :=
  match todo with
  | [] => Ok media_contracts
  | contract :: todo' =>
      (found <- scan_contract okpd_ref okpd2_ref contract ;;
       scan_contracts okpd_ref okpd2_ref todo'
         (match found with
          | Some entry => media_contracts ++ [entry]
          | None => media_contracts
          end))%outcome
  end.

Definition filter_media_contracts (contracts : pyval) : M (list pyval) :=
  (okpd_ref <- load_json "okpd_smi.json" ;;
   okpd2_ref <- load_json "okpd2_smi.json" ;;
   items <- lift (py_iter contracts) ;;
   lift (scan_contracts okpd_ref okpd2_ref items []))%py.

(** ** get_contracts_by_inn *)

(** The function returns either a bare value (the failure text, or the
    supplier name that carries the not-found phrase) or the tuple
    [(supplier_name, total, all_media_contracts)]. *)
Inductive reply : Type :=
| Text (v : pyval)
| Triple (supplier_name total : pyval) (all_media_contracts : list pyval).

(** [for page in range(1, int(num_pages) + 1): ...] *)
Fixpoint fetch_pages (url : string) (pages : list Z)
    (all_media_contracts : list pyval) : M (list pyval) :=
  match pages with
  | [] => ret all_media_contracts
  | page :: pages' =>
      (response <- requests_get (page_url url page) ;;
       body <- lift (json response) ;;
       section <- lift (py_getitem body "contracts") ;;
       contracts <- lift (py_getitem section "data") ;;
       found <- filter_media_contracts contracts ;;
       fetch_pages url pages' (all_media_contracts ++ found))%py
  end.

(** [math.ceil(total / per_page)] *)
Definition count_pages (total per_page : pyval) : outcome Z :=
  (ratio <- py_truediv total per_page ;; math_ceil ratio)%outcome.

(** Lines 75-89: the part of [get_contracts_by_inn] that runs once the
    supplier is known. *)
Definition fetch_contracts (inn : string) (supplier_name : pyval) : M reply :=
  (let url := contracts_url inn in
   response <- requests_get url ;;
   body <- lift (json response) ;;
   data <- lift (py_getitem body "contracts") ;;
   total <- lift (py_getitem data "total") ;;
   per_page <- lift (py_getitem data "perpage") ;;
   num_pages <- lift (count_pages total per_page) ;;
   all_media_contracts <- fetch_pages url (py_range 1 (num_pages + 1)) [] ;;
   ret (Triple supplier_name total all_media_contracts))%py.

Definition get_contracts_by_inn (inn : string) : M reply :=
  (supplier_name <- get_supplier_name inn ;;
   match supplier_name with
   | PNone => ret (Text (PStr something_went_wrong))
   | _ =>
       absent <- lift (py_in (PStr not_found_phrase) supplier_name) ;;
       if absent : bool
       then ret (Text supplier_name)
       else fetch_contracts inn supplier_name
   end)%py.

(** ** Relations used in the statements *)

(** What can go wrong inside the [try] block of [get_supplier_name]: the
    request itself raises (network error, timeout), the body does not decode,
    or the decoded payload has not the expected shape. *)
Inductive lookup_fault (inn : string) (w : world) (e : exn) : Prop :=
| fault_request :
    remote w (sent w) (supplier_url inn) = Raise e ->
    lookup_fault inn w e
| fault_decode (r : response) :
    remote w (sent w) (supplier_url inn) = Ok r ->
    status_code r <> 404 ->
    json r = Raise e ->
    lookup_fault inn w e
| fault_shape (r : response) (data : pyval) :
    remote w (sent w) (supplier_url inn) = Ok r ->
    status_code r <> 404 ->
    json r = Ok data ->
    first_name data = Raise e ->
    lookup_fault inn w e.


(** The summaries of a page, given at most one entry per contract. *)
Definition kept (picks : list (option pyval)) : list pyval :=
  flat_map (fun pick => match pick with Some entry => [entry] | None => [] end)
           picks.

(** A product that is looked at and does not match. *)
Definition misses (okpd_ref okpd2_ref p : pyval) : Prop :=
  product_matches okpd_ref okpd2_ref p = Ok false.

(** What the scan of one contract yields: nothing when no product matches,
    and otherwise the entry built from the first matching product, whatever
    comes after it in the product list. *)
Inductive contract_pick (okpd_ref okpd2_ref contract : pyval)
  : option pyval -> Prop :=
| pick_none (products : pyval) (items : list pyval) :
    py_getitem contract "products" = Ok products ->
    py_iter products = Ok items ->
    Forall (misses okpd_ref okpd2_ref) items ->
    contract_pick okpd_ref okpd2_ref contract None
| pick_first (products : pyval) (before : list pyval) (product : pyval)
             (after : list pyval) (entry : pyval) :
    py_getitem contract "products" = Ok products ->
    py_iter products = Ok (before ++ product :: after)%list ->
    Forall (misses okpd_ref okpd2_ref) before ->
    product_matches okpd_ref okpd2_ref product = Ok true ->
    media_contract contract product products = Ok entry ->
    py_getitem entry PRODUCT_DESCRIPTION = py_get product "name" (PStr "-") ->
    py_getitem entry PRODUCT_PRICE = py_get product "sum" (PStr "-") ->
    contract_pick okpd_ref okpd2_ref contract (Some entry).

(** The page requests of a run, one after the other: [history] is the log
    of requests at the moment the first of [pages] is asked for, and the
    list of results holds, page by page, what [filter_media_contracts]
    makes of the contracts served. *)
Inductive pages_served (url : string) (w : world)
  : list string -> list Z -> list (list pyval) -> Prop :=
| served_none (history : list string) :
    pages_served url w history [] []
| served_next (history : list string) (page : Z) (pages : list Z)
              (r : response) (body section contracts : pyval)
              (result : list pyval) (results : list (list pyval)) :
    remote w history (page_url url page) = Ok r ->
    json r = Ok body ->
    py_getitem body "contracts" = Ok section ->
    py_getitem section "data" = Ok contracts ->
    fst (filter_media_contracts contracts w) = Ok result ->
    pages_served url w (history ++ [page_url url page]) pages results ->
    pages_served url w history (page :: pages) (result :: results).

(** A field of a record, or the dash that stands for a missing one. *)
Definition or_dash (field : option pyval) : pyval :=
  match field with
  | Some v => v
  | None => PStr "-"
  end.

(** The entry expected for a contract record [c] with registry number
    [regnum] and [n] products, and its matching product record [p]. *)
Definition summary_of (c p : list (string * pyval)) (regnum : string) (n : nat)
  : pyval :=
  PDict [("contract_url", PStr ("https://clearspending.ru/contract/" ++ regnum));
         ("contract_price", or_dash (lookup "price" c));
         ("product_description", or_dash (lookup "name" p));
         ("product_price", or_dash (lookup "sum" p));
         ("num_products", PInt (Z.of_nat n))].

(** A product record whose classification fields, when present, are
    records themselves. *)
Definition product_shaped (p : pyval) : Prop :=
  exists d, p = PDict d
            /\ (forall v, lookup "OKPD" d = Some v -> exists c, v = PDict c)
            /\ (forall v, lookup "OKPD2" d = Some v -> exists c, v = PDict c).


(** A reference set (a list or a dictionary of codes) without a null. *)
Definition holds_no_null (ref : pyval) : Prop :=
  match ref with
  | PList l => ~ In PNone l
  | PDict _ => True
  | _ => False
  end.

(** ** Sample worlds

    Small concrete servers and file systems on which the statements below
    are exercised. *)

(** A server that answers from a fixed table, whatever was asked before. *)
Definition serve (table : list (string * outcome response))
  : list string -> string -> outcome response :=
  fun _ url =>
    match find (fun entry => String.eqb url (fst entry)) table with
    | Some entry => snd entry
    | None => Raise (RequestException "unreachable")
    end.

Definition reference_files (okpd_ref okpd2_ref : pyval)
  : string -> outcome pyval :=
  fun source =>
    if String.eqb source "okpd_smi.json" then Ok okpd_ref
    else if String.eqb source "okpd2_smi.json" then Ok okpd2_ref
    else Raise (OSError source).

Definition fresh_world (server : list string -> string -> outcome response)
    (disk : string -> outcome pyval) : world :=
  mkWorld server disk [] [].

Definition answer (status : Z) (body : pyval) : outcome response :=
  Ok (mkResponse status (Ok body)).

(** The payload of the supplier endpoint for one supplier record. *)
Definition supplier_payload (record : list (string * pyval)) : pyval :=
  PDict [("suppliers", PDict [("total", PInt 1); ("perpage", PInt 50);
                              ("data", PList [PDict record])])].

(** The payload of the contracts endpoint. *)
Definition contracts_payload (total per_page : Z) (page : list pyval) : pyval :=
  PDict [("contracts", PDict [("total", PInt total); ("perpage", PInt per_page);
                              ("data", PList page)])].

Definition sample_inn : string := "7826159654".

Definition sample_refs : string -> outcome pyval :=
  reference_files (PList [PStr "22.12"; PStr "22.13"]) (PList [PStr "58.13"; PStr "58.14"]).

(** The registry does not know the identifier. *)
Definition world_unknown : world :=
  fresh_world (serve [(supplier_url sample_inn, answer 404 (PDict []))]) sample_refs.

(** The supplier is known but the contracts endpoint times out. *)
Definition world_fetch_down : world :=
  fresh_world
    (serve [(supplier_url sample_inn,
             answer 200 (supplier_payload [("allNames", PList [PStr "ООО Ромашка"])]));
            (contracts_url sample_inn, Raise (RequestException "timed out"))])
    sample_refs.

(** The supplier endpoint is unreachable. *)
Definition world_lookup_down : world :=
  fresh_world (serve []) sample_refs.

(** The supplier record has an empty list of names. *)
Definition world_no_names : world :=
  fresh_world
    (serve [(supplier_url sample_inn,
             answer 200 (supplier_payload [("allNames", PList [])]))])
    sample_refs.

(** The supplier record has no [allNames] field at all. *)
Definition world_no_field : world :=
  fresh_world
    (serve [(supplier_url sample_inn,
             answer 200 (supplier_payload [("inn", PStr sample_inn)]))])
    sample_refs.

(** A supplier whose registered name happens to contain the phrase. *)
Definition odd_name : string := "ООО Не могу найти поставщика с ИНН".

Definition world_odd_name : world :=
  fresh_world
    (serve [(supplier_url sample_inn,
             answer 200 (supplier_payload [("allNames", PList [PStr odd_name])]))])
    sample_refs.

(** One page of contracts.  The first contract has two matching products,
    the second has none, the third matches and lacks every optional field. *)
Definition contract_ads : pyval :=
  PDict [("regNum", PStr "0173100004515000123");
         ("price", PInt 1500000);
         ("products",
          PList [PDict [("name", PStr "Размещение рекламы"); ("sum", PInt 1000);
                        ("OKPD", PDict [("code", PStr "22.12")])];
                 PDict [("name", PStr "Подписка"); ("sum", PInt 500);
                        ("OKPD2", PDict [("code", PStr "58.14")])]])].

Definition contract_paper : pyval :=
  PDict [("regNum", PStr "0173100004515000124");
         ("price", PInt 70000);
         ("products",
          PList [PDict [("name", PStr "Бумага"); ("sum", PInt 70000);
                        ("OKPD2", PDict [("code", PStr "17.12")])]])].

Definition contract_bare : pyval :=
  PDict [("regNum", PStr "0173100004515000125");
         ("products", PList [PDict [("OKPD2", PDict [("code", PStr "58.13")])]])].

Definition sample_page : list pyval :=
  [contract_ads; contract_paper; contract_bare].

Definition world_page : world := fresh_world (serve []) sample_refs.

(** A contract without a product list, and a matching one without a
    registry number. *)
Definition contract_no_products : pyval :=
  PDict [("regNum", PStr "0173100004515000126"); ("price", PInt 10)].

Definition contract_no_regnum : pyval :=
  PDict [("price", PInt 10);
         ("products", PList [PDict [("OKPD", PDict [("code", PStr "22.13")])]])].

(** Reference files where the first list holds a null. *)
Definition world_null_ref : world :=
  fresh_world (serve []) (reference_files (PList [PStr "22.12"; PNone]) (PList [])).

Definition contract_uncoded : pyval :=
  PDict [("regNum", PStr "0173100004515000127");
         ("products", PList [PDict [("name", PStr "Бумага")]])].

(** A supplier with 250 contracts served 100 to a page; the pages are cut
    short here, the server reports the totals. *)
Definition world_three_pages : world :=
  fresh_world
    (serve [(supplier_url sample_inn,
             answer 200 (supplier_payload [("allNames", PList [PStr "ООО Ромашка"])]));
            (contracts_url sample_inn, answer 200 (contracts_payload 250 100 sample_page));
            (page_url (contracts_url sample_inn) 1,
             answer 200 (contracts_payload 250 100 sample_page));
            (page_url (contracts_url sample_inn) 2,
             answer 200 (contracts_payload 250 100 [contract_paper]));
            (page_url (contracts_url sample_inn) 3,
             answer 200 (contracts_payload 250 100 [contract_bare; contract_ads]))])
    sample_refs.

Definition entry_ads : pyval :=
  summary_of [("price", PInt 1500000)]
             [("name", PStr "Размещение рекламы"); ("sum", PInt 1000)]
             "0173100004515000123" 2.

Definition entry_bare : pyval := summary_of [] [] "0173100004515000125" 1.

(** ** The script entry point *)

(** [if __name__ == '__main__': get_supplier_name(7826159654)]: the
    identifier is an integer there, and [format] writes it in decimal. *)
Definition main : M unit :=
  (get_supplier_name (format_int 7826159654) ;;; ret tt)%py.

(** ** Further relations used in the statements *)

Definition log_requests (urls : list string) (w : world) : world :=
  mkWorld (remote w) (files w) (sent w ++ urls) (printed w).

(** The requests for the pages [1], ..., [k] of [url]. *)
Definition pages_upto (url : string) (k : nat) : list string :=
  map (fun i => page_url url (Z.of_nat i)) (seq 1 k).

(** The registry answers the lookup with a usable name: any status but
    404, a payload of the expected shape, and a name that is not [None] and
    does not hold the not-found phrase. *)
Definition supplier_known (inn : string) (w : world) (name : pyval) : Prop :=
  exists r data,
    remote w (sent w) (supplier_url inn) = Ok r
    /\ status_code r <> 404
    /\ json r = Ok data
    /\ first_name data = Ok name
    /\ name <> PNone
    /\ py_in (PStr not_found_phrase) name = Ok false.

(** The first contracts request, sent right after the lookup, reports
    [total] and [per_page]. *)
Definition contracts_header (inn : string) (w : world) (total per_page : pyval)
  : Prop :=
  exists r body data,
    remote w (sent w ++ [supplier_url inn]) (contracts_url inn) = Ok r
    /\ json r = Ok body
    /\ py_getitem body "contracts" = Ok data
    /\ py_getitem data "total" = Ok total
    /\ py_getitem data "perpage" = Ok per_page.

(** What can go wrong with one page: the request raises, the body does not
    decode, the payload lacks [contracts] or [data], or the filter raises
    on the contracts served. *)
Inductive page_fault (url : string) (w : world) (history : list string)
    (page : Z) (e : exn) : Prop :=
| page_request_fault :
    remote w history (page_url url page) = Raise e ->
    page_fault url w history page e
| page_decode_fault (r : response) :
    remote w history (page_url url page) = Ok r ->
    json r = Raise e ->
    page_fault url w history page e
| page_section_fault (r : response) (body : pyval) :
    remote w history (page_url url page) = Ok r ->
    json r = Ok body ->
    py_getitem body "contracts" = Raise e ->
    page_fault url w history page e
| page_data_fault (r : response) (body section : pyval) :
    remote w history (page_url url page) = Ok r ->
    json r = Ok body ->
    py_getitem body "contracts" = Ok section ->
    py_getitem section "data" = Raise e ->
    page_fault url w history page e
| page_filter_fault (r : response) (body section contracts : pyval) :
    remote w history (page_url url page) = Ok r ->
    json r = Ok body ->
    py_getitem body "contracts" = Ok section ->
    py_getitem section "data" = Ok contracts ->
    fst (filter_media_contracts contracts w) = Raise e ->
    page_fault url w history page e.

(** The code a product record carries under a classification field:
    [None] when the field or its [code] is missing. *)
Definition code_of (d : list (string * pyval)) (field : string) : pyval :=
  match lookup field d with
  | Some (PDict c) => match lookup "code" c with
                      | Some v => v
                      | None => PNone
                      end
  | _ => PNone
  end.

(** A code that is a text, or no code at all. *)
Definition plain_code (v : pyval) : Prop :=
  v = PNone \/ exists s, v = PStr s.

(** The shape of every entry the filter returns. *)
Definition entry_of (regnum : string) (contract_price description product_price : pyval)
    (n : Z) : pyval :=
  PDict [("contract_url", PStr ("https://clearspending.ru/contract/" ++ regnum));
         ("contract_price", contract_price);
         ("product_description", description);
         ("product_price", product_price);
         ("num_products", PInt n)].

(** ** Further sample worlds *)

Definition known_supplier : string * outcome response :=
  (supplier_url sample_inn,
   answer 200 (supplier_payload [("allNames", PList [PStr "ООО Ромашка"])])).

(** The contracts endpoint reports a page size of zero. *)
Definition world_zero_perpage : world :=
  fresh_world
    (serve [known_supplier;
            (contracts_url sample_inn, answer 200 (contracts_payload 250 0 []))])
    sample_refs.

(** A supplier without contracts, and no reference files on disk. *)
Definition world_no_contracts : world :=
  fresh_world
    (serve [known_supplier;
            (contracts_url sample_inn, answer 200 (contracts_payload 0 50 []))])
    (fun source => Raise (OSError source)).

(** The first name of the supplier record is a number. *)
Definition world_numeric_name : world :=
  fresh_world
    (serve [(supplier_url sample_inn,
             answer 200 (supplier_payload [("allNames", PList [PInt 7826159654])]))])
    sample_refs.

(** Three pages announced, the second one unreachable. *)
Definition world_page_two_down : world :=
  fresh_world
    (serve [known_supplier;
            (contracts_url sample_inn, answer 200 (contracts_payload 250 100 sample_page));
            (page_url (contracts_url sample_inn) 1,
             answer 200 (contracts_payload 250 100 sample_page));
            (page_url (contracts_url sample_inn) 2,
             Raise (RequestException "timed out"));
            (page_url (contracts_url sample_inn) 3,
             answer 200 (contracts_payload 250 100 [contract_bare]))])
    sample_refs.

Definition contract_empty : pyval :=
  PDict [("products", PList [])].

(** Reference files that hold numbers instead of code lists. *)
Definition world_broken_refs : world :=
  fresh_world (serve []) (reference_files (PInt 1) (PInt 2)).

(** The contracts endpoint reports its total as a text. *)
Definition world_text_total : world :=
  fresh_world
    (serve [known_supplier;
            (contracts_url sample_inn,
             answer 200 (PDict [("contracts",
                                 PDict [("total", PStr "250"); ("perpage", PInt 100);
                                        ("data", PList [])])]))])
    sample_refs.

(** The first name of the supplier record is a null. *)
Definition world_null_name : world :=
  fresh_world
    (serve [(supplier_url sample_inn,
             answer 200 (supplier_payload [("allNames", PList [PNone])]))])
    sample_refs.

(** A total just above a multiple of a huge page size: the quotient
    [(10 ^ 17 + 1) / 10 ^ 17] rounds to the double [1.0]. *)
Definition world_wide_total : world :=
  fresh_world
    (serve [known_supplier;
            (contracts_url sample_inn,
             answer 200 (contracts_payload (10 ^ 17 + 1) (10 ^ 17) sample_page));
            (page_url (contracts_url sample_inn) 1,
             answer 200 (contracts_payload (10 ^ 17 + 1) (10 ^ 17) sample_page));
            (page_url (contracts_url sample_inn) 2,
             answer 200 (contracts_payload (10 ^ 17 + 1) (10 ^ 17) [contract_bare]))])
    sample_refs.
(** * Properties *)

(** ** Strings and values *)

Lemma prefix_app (s t : string) : String.prefix s (s ++ t) = true.
Proof.
  induction s as [|c s IH]; simpl.
  - destruct t; reflexivity.
  - destruct (ascii_dec c c); [exact IH | congruence].
Qed.

Lemma str_contains_prefix (needle hay : string) :
  String.prefix needle hay = true -> str_contains needle hay = true.
Proof. destruct hay; simpl; intros ->; reflexivity. Qed.

Lemma not_found_message_contains (inn : string) :
  str_contains not_found_phrase (not_found_message inn) = true.
Proof. apply str_contains_prefix, prefix_app. Qed.

Lemma py_eq_None (v : pyval) : py_eq PNone v = true <-> v = PNone.
Proof. destruct v; simpl; split; congruence. Qed.

Lemma existsb_eq_None (l : list pyval) :
  existsb (py_eq PNone) l = true <-> In PNone l.
Proof.
  rewrite existsb_exists. split.
  - intros [x [Hin Heq]]. apply py_eq_None in Heq. now subst.
  - intros Hin. exists PNone. split; [exact Hin | reflexivity].
Qed.

(** ** The supplier lookup, case by case *)

Section Lookup.

Variables (inn : string) (w : world).

Lemma get_supplier_name_404 (r : response) :
  remote w (sent w) (supplier_url inn) = Ok r ->
  status_code r = 404 ->
  get_supplier_name inn w
  = (Ok (PStr (not_found_message inn)), log_request (supplier_url inn) w).
Proof.
  intros Hr Hs.
  unfold get_supplier_name, try_except, supplier_name_body, bind, requests_get.
  rewrite Hr, Hs. reflexivity.
Qed.

Lemma get_supplier_name_found (r : response) (data name : pyval) :
  remote w (sent w) (supplier_url inn) = Ok r ->
  status_code r <> 404 ->
  json r = Ok data ->
  first_name data = Ok name ->
  get_supplier_name inn w = (Ok name, log_request (supplier_url inn) w).
Proof.
  intros Hr Hs Hj Hn.
  unfold get_supplier_name, try_except, supplier_name_body, bind, requests_get, lift.
  rewrite Hr. apply Z.eqb_neq in Hs. rewrite Hs, Hj, Hn. reflexivity.
Qed.

End Lookup.

Lemma get_supplier_name_fault (inn : string) (w : world) (e : exn) :
  lookup_fault inn w e ->
  get_supplier_name inn w
  = (Ok PNone, log_print e (log_request (supplier_url inn) w)).
Proof.
  intros [Hr | r Hr Hs Hj | r data Hr Hs Hj Hn];
    unfold get_supplier_name, try_except, supplier_name_body, bind, requests_get,
           lift, print, ret;
    rewrite Hr; try reflexivity;
    apply Z.eqb_neq in Hs; rewrite Hs, Hj; try reflexivity.
  rewrite Hn. reflexivity.
Qed.

(** [get_supplier_name] itself never raises, and sends exactly one request. *)
Lemma get_supplier_name_total (inn : string) (w : world) :
  exists v w', get_supplier_name inn w = (Ok v, w')
               /\ sent w' = (sent w ++ [supplier_url inn])%list
               /\ remote w' = remote w /\ files w' = files w.
Proof.
  unfold get_supplier_name, try_except, supplier_name_body, bind, requests_get,
         lift, print, ret.
  destruct (remote w (sent w) (supplier_url inn)) as [r|e]; [|eauto 10].
  destruct (status_code r =? 404); [eauto 10|].
  destruct (json r) as [data|e]; [|eauto 10].
  destruct (first_name data) as [name|e]; eauto 10.
Qed.

(** ** Outcomes of [get_contracts_by_inn] decided by the lookup *)

(** C6.  When the registry answers the lookup with status 404,
    [get_supplier_name] returns the not-found text ending in exactly the
    identifier asked for, and [get_contracts_by_inn] returns that same text
    at once: the only request on record is the lookup itself, no contracts
    request is issued. *)
Theorem not_found_propagates (inn : string) (w : world) (r : response) :
  remote w (sent w) (supplier_url inn) = Ok r ->
  status_code r = 404 ->
  get_supplier_name inn w
  = (Ok (PStr (not_found_phrase ++ " " ++ inn)), log_request (supplier_url inn) w)
  /\ get_contracts_by_inn inn w
     = (Ok (Text (PStr (not_found_phrase ++ " " ++ inn))),
        log_request (supplier_url inn) w)
  /\ sent (snd (get_contracts_by_inn inn w)) = (sent w ++ [supplier_url inn])%list.
Proof.
  intros Hr Hs.
  pose proof (get_supplier_name_404 inn w r Hr Hs) as Hname.
  assert (Hrun : get_contracts_by_inn inn w
                 = (Ok (Text (PStr (not_found_message inn))),
                    log_request (supplier_url inn) w)).
  { unfold get_contracts_by_inn, bind. rewrite Hname.
    unfold lift, py_in. rewrite not_found_message_contains. reflexivity. }
  split; [exact Hname|]. split; [exact Hrun|].
  rewrite Hrun. reflexivity.
Qed.

Lemma not_found_propagates_witness :
  get_contracts_by_inn sample_inn world_unknown
  = (Ok (Text (PStr "Не могу найти поставщика с ИНН 7826159654")),
     log_request (supplier_url sample_inn) world_unknown).
Proof.
  refine (proj1 (proj2 (not_found_propagates sample_inn world_unknown
                          (mkResponse 404 (Ok (PDict []))) _ _)));
    reflexivity.
Defined.

(** C9.  A lookup that succeeds (status other than 404, a decodable payload
    of the expected shape) with a display name that contains the not-found
    phrase is taken for a missing supplier: [get_contracts_by_inn] returns
    the name itself and sends nothing after the lookup request. *)
Theorem phrase_in_name_reads_as_not_found
    (inn : string) (w : world) (r : response) (data : pyval) (s : string) :
  remote w (sent w) (supplier_url inn) = Ok r ->
  status_code r <> 404 ->
  json r = Ok data ->
  first_name data = Ok (PStr s) ->
  str_contains not_found_phrase s = true ->
  get_contracts_by_inn inn w
  = (Ok (Text (PStr s)), log_request (supplier_url inn) w)
  /\ sent (snd (get_contracts_by_inn inn w)) = (sent w ++ [supplier_url inn])%list.
Proof.
  intros Hr Hs Hj Hn Hin.
  assert (Hrun : get_contracts_by_inn inn w
                 = (Ok (Text (PStr s)), log_request (supplier_url inn) w)).
  { unfold get_contracts_by_inn, bind.
    rewrite (get_supplier_name_found inn w r data (PStr s) Hr Hs Hj Hn).
    unfold lift, py_in. rewrite Hin. reflexivity. }
  split; [exact Hrun|]. rewrite Hrun. reflexivity.
Qed.

Lemma phrase_in_name_reads_as_not_found_witness :
  get_contracts_by_inn sample_inn world_odd_name
  = (Ok (Text (PStr odd_name)), log_request (supplier_url sample_inn) world_odd_name).
Proof.
  refine (proj1 (phrase_in_name_reads_as_not_found sample_inn world_odd_name
                   (mkResponse 200
                      (Ok (supplier_payload [("allNames", PList [PStr odd_name])])))
                   _ odd_name _ _ _ _ _));
    try reflexivity.
  discriminate.
Defined.

(** C1, as the code has it.  Whatever goes wrong during the supplier lookup
    (the request raises, the body does not decode, the payload has not the
    expected shape) is caught inside [get_supplier_name], printed, and
    turned by [get_contracts_by_inn] into the generic failure text. *)
Theorem lookup_fault_is_generic_failure (inn : string) (w : world) (e : exn) :
  lookup_fault inn w e ->
  get_contracts_by_inn inn w
  = (Ok (Text (PStr something_went_wrong)),
     log_print e (log_request (supplier_url inn) w)).
Proof.
  intros Hfault.
  unfold get_contracts_by_inn, bind.
  rewrite (get_supplier_name_fault inn w e Hfault). reflexivity.
Qed.

Lemma lookup_fault_is_generic_failure_witness :
  fst (get_contracts_by_inn sample_inn world_lookup_down)
  = Ok (Text (PStr "Что-то пошло не так")).
Proof.
  rewrite (lookup_fault_is_generic_failure sample_inn world_lookup_down
             (RequestException "unreachable")).
  - reflexivity.
  - apply fault_request. reflexivity.
Defined.

(** C1, as stated, fails: the contracts requests are made outside any
    [try], so a timeout of the contracts endpoint leaves
    [get_contracts_by_inn] as an exception. *)
Lemma fetch_fault_propagates :
  fst (get_contracts_by_inn sample_inn world_fetch_down)
  = Raise (RequestException "timed out")
  /\ ~ (forall inn w, exists v, fst (get_contracts_by_inn inn w) = Ok v).
Proof.
  assert (H : fst (get_contracts_by_inn sample_inn world_fetch_down)
              = Raise (RequestException "timed out")) by (vm_compute; reflexivity).
  split; [exact H|].
  intros Hall. destruct (Hall sample_inn world_fetch_down) as [v Hv].
  rewrite H in Hv. discriminate.
Qed.

(** C7, as the code has it.  On a successful lookup whose first supplier
    record is a dictionary: with an [allNames] field the function returns
    the first item of that field, and without the field it returns the
    placeholder name. *)
Theorem supplier_name_or_placeholder
    (inn : string) (w : world) (r : response)
    (data suppliers rows : pyval) (record : list (string * pyval)) :
  remote w (sent w) (supplier_url inn) = Ok r ->
  status_code r <> 404 ->
  json r = Ok data ->
  py_getitem data "suppliers" = Ok suppliers ->
  py_getitem suppliers "data" = Ok rows ->
  py_first rows = Ok (PDict record) ->
  match lookup "allNames" record with
  | Some names =>
      forall name, py_first names = Ok name ->
                   fst (get_supplier_name inn w) = Ok name
  | None => fst (get_supplier_name inn w) = Ok (PStr "Имярек")
  end.
Proof.
  intros Hr Hs Hj Hsup Hrows Hrow.
  assert (Hfirst : first_name data
                   = obind (py_get (PDict record) "allNames"
                              (PList [PStr placeholder_name])) py_first).
  { unfold first_name. rewrite Hsup. simpl obind. rewrite Hrows. simpl obind.
    rewrite Hrow. reflexivity. }
  unfold py_get in Hfirst.
  destruct (lookup "allNames" record) as [names|].
  - intros name Hname. simpl obind in Hfirst. rewrite Hname in Hfirst.
    rewrite (get_supplier_name_found inn w r data name Hr Hs Hj Hfirst).
    reflexivity.
  - rewrite (get_supplier_name_found inn w r data (PStr placeholder_name)
               Hr Hs Hj Hfirst).
    reflexivity.
Qed.

Lemma supplier_name_or_placeholder_witness :
  fst (get_supplier_name sample_inn world_no_field) = Ok (PStr "Имярек").
Proof.
  refine (supplier_name_or_placeholder sample_inn world_no_field
            (mkResponse 200 (Ok (supplier_payload [("inn", PStr sample_inn)])))
            _ _ _ [("inn", PStr sample_inn)] _ _ _ _ _ _);
    try reflexivity.
  discriminate.
Defined.

(** C7, as stated, fails: with an empty [allNames] list no name is
    available, yet the index [[0]] raises, the handler returns [None] and
    the caller gets the generic failure text instead of the placeholder. *)
Lemma empty_names_is_generic_failure :
  fst (get_supplier_name sample_inn world_no_names) = Ok PNone
  /\ fst (get_contracts_by_inn sample_inn world_no_names)
     = Ok (Text (PStr something_went_wrong)).
Proof. split; vm_compute; reflexivity. Qed.

(** ** The inner loop: first matching product *)

Section Scan.

Variables okpd_ref okpd2_ref : pyval.

Lemma media_contract_fields (contract product products entry : pyval) :
  media_contract contract product products = Ok entry ->
  py_getitem entry PRODUCT_DESCRIPTION = py_get product "name" (PStr "-")
  /\ py_getitem entry PRODUCT_PRICE = py_get product "sum" (PStr "-").
Proof.
  unfold media_contract. intros H.
  destruct (py_get contract "price" (PStr "-")) as [cp|]; [|discriminate].
  destruct (py_get product "sum" (PStr "-")) as [pp|]; [|discriminate].
  destruct (py_get product "name" (PStr "-")) as [pd|]; [|discriminate].
  destruct (py_getitem contract "regNum") as [rn|]; [|discriminate].
  simpl obind in H.
  destruct (py_str_add clearspending_base rn) as [url|]; [|discriminate].
  destruct (py_len products) as [n|]; [|discriminate].
  simpl in H. injection H as <-. split; reflexivity.
Qed.

Lemma scan_products_none (contract products : pyval) (items : list pyval) :
  Forall (misses okpd_ref okpd2_ref) items ->
  scan_products okpd_ref okpd2_ref contract products items = Ok None.
Proof.
  induction 1 as [|p items Hp _ IH]; simpl; [reflexivity|].
  unfold misses in Hp. rewrite Hp. exact IH.
Qed.

Lemma scan_products_first (contract products : pyval)
    (before : list pyval) (product : pyval) (after : list pyval) :
  Forall (misses okpd_ref okpd2_ref) before ->
  product_matches okpd_ref okpd2_ref product = Ok true ->
  scan_products okpd_ref okpd2_ref contract products
                (before ++ product :: after)%list
  = obind (media_contract contract product products) (fun entry => Ok (Some entry)).
Proof.
  intros Hbefore Hhit.
  induction Hbefore as [|p before Hp _ IH]; simpl.
  - rewrite Hhit. reflexivity.
  - unfold misses in Hp. rewrite Hp. exact IH.
Qed.

Lemma scan_products_inv (contract products : pyval) (items : list pyval)
    (pick : option pyval) :
  scan_products okpd_ref okpd2_ref contract products items = Ok pick ->
  match pick with
  | None => Forall (misses okpd_ref okpd2_ref) items
  | Some entry =>
      exists before product after,
        items = (before ++ product :: after)%list
        /\ Forall (misses okpd_ref okpd2_ref) before
        /\ product_matches okpd_ref okpd2_ref product = Ok true
        /\ media_contract contract product products = Ok entry
  end.
Proof.
  revert pick. induction items as [|p items IH]; simpl; intros pick H.
  - injection H as <-. constructor.
  - destruct (product_matches okpd_ref okpd2_ref p) as [[|]|e] eqn:Hp;
      simpl in H; [| |discriminate].
    + destruct (media_contract contract p products) as [entry|e] eqn:He;
        simpl in H; [|discriminate].
      injection H as <-. exists [], p, items. auto.
    + specialize (IH pick H). destruct pick as [entry|].
      * destruct IH as (before & product & after & -> & Hb & Hhit & He).
        exists (p :: before), product, after. auto.
      * constructor; assumption.
Qed.

Lemma scan_contract_pick (contract : pyval) (pick : option pyval) :
  scan_contract okpd_ref okpd2_ref contract = Ok pick
  <-> contract_pick okpd_ref okpd2_ref contract pick.
Proof.
  unfold scan_contract. split.
  - intros H.
    destruct (py_getitem contract "products") as [products|] eqn:Hps;
      [|discriminate].
    cbn [obind] in H.
    destruct (py_iter products) as [items|] eqn:Hit; [|discriminate].
    cbn [obind] in H. apply scan_products_inv in H.
    destruct pick as [entry|].
    + destruct H as (before & product & after & -> & Hb & Hhit & He).
      destruct (media_contract_fields _ _ _ _ He).
      eapply pick_first; eauto.
    + eapply pick_none; eauto.
  - intros [products items Hps Hit Hall
           |products before product after entry Hps Hit Hb Hhit He _ _];
      rewrite Hps; simpl obind; rewrite Hit; simpl obind.
    + apply scan_products_none. exact Hall.
    + rewrite scan_products_first by assumption. rewrite He. reflexivity.
Qed.

(** ** The outer loop *)

Lemma scan_contracts_acc (items acc : list pyval) :
  scan_contracts okpd_ref okpd2_ref items acc
  = obind (scan_contracts okpd_ref okpd2_ref items [])
          (fun tail => Ok (acc ++ tail)%list).
Proof.
  revert acc. induction items as [|c items IH]; intros acc; simpl.
  - rewrite app_nil_r. reflexivity.
  - destruct (scan_contract okpd_ref okpd2_ref c) as [[entry|]|e]; simpl;
      [| apply IH | reflexivity].
    rewrite (IH (acc ++ [entry])%list), (IH [entry]).
    destruct (scan_contracts okpd_ref okpd2_ref items []) as [tail|e]; simpl;
      [|reflexivity].
    rewrite <- app_assoc. reflexivity.
Qed.

Lemma scan_contracts_app (front back acc : list pyval) :
  scan_contracts okpd_ref okpd2_ref (front ++ back) acc
  = obind (scan_contracts okpd_ref okpd2_ref front acc)
          (fun mid => scan_contracts okpd_ref okpd2_ref back mid).
Proof.
  revert acc. induction front as [|c front IH]; intros acc; simpl;
    [reflexivity|].
  destruct (scan_contract okpd_ref okpd2_ref c) as [found|e]; simpl;
    [apply IH | reflexivity].
Qed.

Lemma scan_contracts_picks (items out : list pyval) :
  scan_contracts okpd_ref okpd2_ref items [] = Ok out
  <-> exists picks,
        Forall2 (contract_pick okpd_ref okpd2_ref) items picks
        /\ out = kept picks.
Proof.
  revert out. induction items as [|c items IH]; intros out; simpl.
  - split.
    + intros H. injection H as <-. exists []. split; [constructor|reflexivity].
    + intros (picks & Hall & ->). inversion Hall. reflexivity.
  - split.
    + intros H.
      destruct (scan_contract okpd_ref okpd2_ref c) as [found|e] eqn:Hc;
        [|discriminate].
      simpl obind in H. rewrite scan_contracts_acc in H.
      destruct (scan_contracts okpd_ref okpd2_ref items []) as [tail|e] eqn:Ht;
        [|discriminate].
      simpl in H. injection H as <-.
      destruct (proj1 (IH tail) eq_refl) as (picks & Hall & ->).
      exists (found :: picks). split.
      * constructor; [apply scan_contract_pick; exact Hc | exact Hall].
      * destruct found; simpl; rewrite ?app_nil_r; reflexivity.
    + intros (picks & Hall & ->).
      inversion Hall as [|c' found items' picks' Hc Hrest]; subst.
      apply scan_contract_pick in Hc. rewrite Hc. simpl obind.
      rewrite scan_contracts_acc.
      rewrite (proj2 (IH (kept picks')))
        by (exists picks'; split; [exact Hrest | reflexivity]).
      simpl. destruct found; simpl; rewrite ?app_nil_r; reflexivity.
Qed.

Lemma length_kept (picks : list (option pyval)) :
  (List.length (kept picks) <= List.length picks)%nat.
Proof.
  induction picks as [|[entry|] picks IH]; simpl; lia.
Qed.

End Scan.

(** ** filter_media_contracts *)

Lemma filter_media_contracts_run (contracts : pyval) (w : world) :
  filter_media_contracts contracts w
  = (obind (files w "okpd_smi.json") (fun okpd_ref =>
     obind (files w "okpd2_smi.json") (fun okpd2_ref =>
     obind (py_iter contracts) (fun items =>
     scan_contracts okpd_ref okpd2_ref items []))), w).
Proof.
  unfold filter_media_contracts, bind, load_json, lift.
  destruct (files w "okpd_smi.json"); [|reflexivity].
  destruct (files w "okpd2_smi.json"); [|reflexivity].
  cbn [obind]. destruct (py_iter contracts); reflexivity.
Qed.

(** C3.  A call of [filter_media_contracts] returns a list exactly when the
    page pairs off, contract by contract and in order, with at most one
    entry each: no entry for a contract none of whose products matches, and
    otherwise the entry built from the first product that matches, its
    description and price read from that product, whatever follows that
    product in the list.  The returned list is these entries, so it is no
    longer than the page. *)
Theorem filter_media_contracts_first_match
    (contracts : pyval) (w : world) (out : list pyval) :
  fst (filter_media_contracts contracts w) = Ok out
  <-> exists okpd_ref okpd2_ref items picks,
        files w "okpd_smi.json" = Ok okpd_ref
        /\ files w "okpd2_smi.json" = Ok okpd2_ref
        /\ py_iter contracts = Ok items
        /\ Forall2 (contract_pick okpd_ref okpd2_ref) items picks
        /\ out = kept picks
        /\ (List.length out <= List.length items)%nat.
Proof.
  rewrite filter_media_contracts_run. cbn [fst]. split.
  - intros H.
    destruct (files w "okpd_smi.json") as [r1|]; [|discriminate].
    destruct (files w "okpd2_smi.json") as [r2|]; [|discriminate].
    cbn [obind] in H.
    destruct (py_iter contracts) as [items|]; [|discriminate].
    cbn [obind] in H. apply scan_contracts_picks in H.
    destruct H as (picks & Hall & ->).
    exists r1, r2, items, picks. repeat (split; [auto|]).
    rewrite (Forall2_length Hall). apply length_kept.
  - intros (r1 & r2 & items & picks & -> & -> & -> & Hall & -> & _).
    cbn [obind]. apply scan_contracts_picks. exists picks. auto.
Qed.

Lemma filter_media_contracts_first_match_witness :
  exists okpd_ref okpd2_ref items picks,
    files world_page "okpd_smi.json" = Ok okpd_ref
    /\ files world_page "okpd2_smi.json" = Ok okpd2_ref
    /\ py_iter (PList sample_page) = Ok items
    /\ Forall2 (contract_pick okpd_ref okpd2_ref) items picks
    /\ [entry_ads; entry_bare] = kept picks
    /\ (List.length [entry_ads; entry_bare] <= List.length items)%nat.
Proof.
  apply (proj1 (filter_media_contracts_first_match (PList sample_page) world_page
                  [entry_ads; entry_bare])).
  vm_compute. reflexivity.
Defined.

(** C8.  The result of [filter_media_contracts] on a page depends on the
    world only through the two reference files, and the call leaves the
    world as it found it.  Hence a second call on the same page, at once or
    later, returns the same list as long as the files read the same. *)
Theorem filter_media_contracts_repeatable (contracts : pyval) (w w' : world) :
  files w' "okpd_smi.json" = files w "okpd_smi.json" ->
  files w' "okpd2_smi.json" = files w "okpd2_smi.json" ->
  fst (filter_media_contracts contracts w') = fst (filter_media_contracts contracts w)
  /\ snd (filter_media_contracts contracts w) = w
  /\ fst (filter_media_contracts contracts (snd (filter_media_contracts contracts w)))
     = fst (filter_media_contracts contracts w).
Proof.
  intros H1 H2. rewrite !filter_media_contracts_run. cbn [fst snd].
  rewrite H1, H2. auto.
Qed.

Lemma filter_media_contracts_repeatable_witness :
  fst (filter_media_contracts (PList sample_page)
         (log_print IndexError (log_request "http://example.org/" world_page)))
  = fst (filter_media_contracts (PList sample_page) world_page).
Proof.
  refine (proj1 (filter_media_contracts_repeatable (PList sample_page) world_page
                   (log_print IndexError (log_request "http://example.org/" world_page))
                   _ _));
    reflexivity.
Defined.

(** ** Products without classification codes *)

Lemma py_in_None (ref : pyval) :
  holds_no_null ref -> py_in PNone ref = Ok false.
Proof.
  destruct ref as [| | | | |l|d]; simpl; try contradiction.
  - intros Hnot. f_equal. apply not_true_is_false.
    rewrite existsb_eq_None. exact Hnot.
  - reflexivity.
Qed.

(** C5, as the code has it.  A product record with neither an [OKPD] nor an
    [OKPD2] field does not match, for all reference sets that hold no null
    entry. *)
Theorem product_without_codes_misses
    (okpd_ref okpd2_ref : pyval) (d : list (string * pyval)) :
  holds_no_null okpd_ref ->
  holds_no_null okpd2_ref ->
  lookup "OKPD" d = None ->
  lookup "OKPD2" d = None ->
  product_matches okpd_ref okpd2_ref (PDict d) = Ok false.
Proof.
  intros Hr1 Hr2 H1 H2. unfold product_matches, py_get.
  rewrite H1, H2. cbn. rewrite (py_in_None _ Hr1). cbn.
  apply py_in_None. exact Hr2.
Qed.

Lemma product_without_codes_misses_witness :
  product_matches (PList [PStr "22.12"; PStr "22.13"]) (PDict [("58.13", PNone)])
                  (PDict [("name", PStr "Бумага")])
  = Ok false.
Proof.
  apply product_without_codes_misses; try reflexivity.
  simpl. intros [H|[H|[]]]; discriminate.
Defined.

(** C5, as stated, fails: the missing code is [None], and [None] is found
    in a reference list that holds a null, so the product matches and its
    contract is reported. *)
Lemma product_without_codes_matches_null :
  product_matches (PList [PStr "22.12"; PNone]) (PList [])
                  (PDict [("name", PStr "Бумага")])
  = Ok true
  /\ fst (filter_media_contracts (PList [contract_uncoded]) world_null_ref)
     = Ok [summary_of [] [("name", PStr "Бумага")] "0173100004515000127" 1]
  /\ ~ (forall okpd_ref okpd2_ref d,
          lookup "OKPD" d = None -> lookup "OKPD2" d = None ->
          product_matches okpd_ref okpd2_ref (PDict d) = Ok false).
Proof.
  split; [reflexivity|]. split; [vm_compute; reflexivity|].
  intros Hall.
  specialize (Hall (PList [PStr "22.12"; PNone]) (PList [])
                   [("name", PStr "Бумага")] eq_refl eq_refl).
  discriminate Hall.
Qed.

(** ** Missing fields *)

Section Shaped.

Variables l1 l2 : list pyval.

Lemma media_contract_shaped (c p : list (string * pyval))
    (products : list pyval) (regnum : string) :
  lookup "regNum" c = Some (PStr regnum) ->
  media_contract (PDict c) (PDict p) (PList products)
  = Ok (summary_of c p regnum (List.length products)).
Proof.
  intros Hreg. unfold media_contract, py_get, py_getitem, summary_of.
  rewrite Hreg.
  destruct (lookup "price" c), (lookup "sum" p), (lookup "name" p);
    reflexivity.
Qed.





End Shaped.



(** What the entry of the bare contract looks like. *)
Example bare_contract_entry :
  fst (filter_media_contracts (PList [contract_bare]) world_page)
  = Ok [PDict [("contract_url",
                PStr "https://clearspending.ru/contract/0173100004515000125");
               ("contract_price", PStr "-");
               ("product_description", PStr "-");
               ("product_price", PStr "-");
               ("num_products", PInt 1)]].
Proof. vm_compute. reflexivity. Qed.


(** ** Order of the entries *)

Lemma filter_media_contracts_app (front back : list pyval) (w : world)
    (out : list pyval) :
  fst (filter_media_contracts (PList (front ++ back)) w) = Ok out ->
  exists out1 out2,
    fst (filter_media_contracts (PList front) w) = Ok out1
    /\ fst (filter_media_contracts (PList back) w) = Ok out2
    /\ out = (out1 ++ out2)%list.
Proof.
  rewrite !filter_media_contracts_run. cbn [fst].
  destruct (files w "okpd_smi.json") as [r1|]; [|discriminate].
  destruct (files w "okpd2_smi.json") as [r2|]; [|discriminate].
  cbn [obind py_iter]. rewrite scan_contracts_app.
  destruct (scan_contracts r1 r2 front []) as [out1|]; [|discriminate].
  cbn [obind]. rewrite scan_contracts_acc.
  destruct (scan_contracts r1 r2 back []) as [out2|]; [|discriminate].
  cbn [obind]. intros H. injection H as <-. eauto.
Qed.

(** ** Paging *)

Lemma py_range_from_1 (n : Z) :
  py_range 1 (n + 1) = map Z.of_nat (seq 1 (Z.to_nat n)).
Proof.
  unfold py_range. replace (n + 1 - 1) with n by lia.
  rewrite <- seq_shift, map_map. apply map_ext. intros i. lia.
Qed.

(** *** The page count in double arithmetic *)

Lemma binade_bounds (n d : Z) :
  Z.log2 n - Z.log2 d - 1 <= binade n d <= Z.log2 n - Z.log2 d.
Proof.
  unfold binade. destruct (scaled n d (Z.log2 n - Z.log2 d)) as [N D].
  destruct (D <=? N); lia.
Qed.

Lemma binade_lower (n d : Z) :
  0 < n -> 0 < d ->
  d * 2 ^ Z.max 0 (binade n d) <= n * 2 ^ Z.max 0 (- binade n d).
Proof.
  intros Hn Hd. unfold binade.
  destruct (scaled n d (Z.log2 n - Z.log2 d)) as [N D] eqn:Hs.
  destruct (D <=? N) eqn:Htest.
  - apply Z.leb_le in Htest. unfold scaled in Hs. injection Hs as <- <-.
    exact Htest.
  - clear Hs Htest.
    destruct (Z.log2_spec n Hn) as [Hn1 _].
    destruct (Z.log2_spec d Hd) as [_ Hd2].
    pose proof (Z.log2_nonneg n) as Ha. pose proof (Z.log2_nonneg d) as Hb.
    set (a := Z.log2 n) in *. set (b := Z.log2 d) in *.
    destruct (Z.le_gt_cases 0 (a - b - 1)) as [Hpos|Hneg].
    + rewrite (Z.max_r 0 (a - b - 1)) by lia.
      rewrite (Z.max_l 0 (- (a - b - 1))) by lia.
      rewrite Z.pow_0_r, Z.mul_1_r.
      assert (Hsplit : 2 ^ a = 2 ^ (a - b - 1) * 2 ^ Z.succ b).
      { rewrite <- Z.pow_add_r by lia. f_equal; lia. }
      assert (0 < 2 ^ (a - b - 1)) by (apply Z.pow_pos_nonneg; lia).
      nia.
    + rewrite (Z.max_l 0 (a - b - 1)) by lia.
      rewrite (Z.max_r 0 (- (a - b - 1))) by lia.
      rewrite Z.pow_0_r, Z.mul_1_r.
      assert (Hsplit : 2 ^ Z.succ b = 2 ^ (- (a - b - 1)) * 2 ^ a).
      { rewrite <- Z.pow_add_r by lia. f_equal; lia. }
      assert (0 < 2 ^ (- (a - b - 1))) by (apply Z.pow_pos_nonneg; lia).
      nia.
Qed.

Lemma round_half_even_cases (N D : Z) :
  0 < D ->
  (round_half_even N D = N / D /\ 2 * (N mod D) <= D)
  \/ (round_half_even N D = N / D + 1 /\ D <= 2 * (N mod D)).
Proof.
  intros HD. unfold round_half_even.
  destruct (2 * (N mod D) ?= D) eqn:Hc.
  - apply Z.compare_eq in Hc. destruct (Z.even (N / D)); [left | right]; lia.
  - rewrite Z.compare_lt_iff in Hc. left. lia.
  - rewrite Z.compare_gt_iff in Hc. right. lia.
Qed.

Lemma ceiling_fraction (m S : Z) :
  0 < S ->
  (Qceiling (m # Z.to_pos S) - 1) * S < m <= Qceiling (m # Z.to_pos S) * S.
Proof.
  intros HS. unfold Qceiling, Qfloor, Qopp. cbn [Qnum Qden].
  rewrite Z2Pos.id by exact HS.
  pose proof (Z.mul_div_le (- m) S HS).
  pose proof (Z.mul_succ_div_gt (- m) S HS).
  lia.
Qed.

Lemma mantissa_scale (n d : Z) :
  0 < n < 2 ^ 53 -> 0 < d < 2 ^ 53 ->
  Z.max (binade n d - 52) (-1074) = binade n d - 52
  /\ 0 <= 52 - binade n d <= 105
  /\ d < 2 * 2 ^ (52 - binade n d).
Proof.
  intros Hn Hd.
  pose proof (binade_bounds n d) as Hx.
  pose proof (binade_lower n d ltac:(lia) ltac:(lia)) as Hlow.
  assert (Ha : 0 <= Z.log2 n < 53).
  { split; [apply Z.log2_nonneg | apply Z.log2_lt_pow2; lia]. }
  assert (Hb : 0 <= Z.log2 d < 53).
  { split; [apply Z.log2_nonneg | apply Z.log2_lt_pow2; lia]. }
  set (x := binade n d) in *.
  split; [lia|]. split; [lia|].
  destruct (Z.le_gt_cases 0 x) as [Hpos|Hneg].
  - rewrite (Z.max_r 0 x), (Z.max_l 0 (- x)) in Hlow by lia.
    rewrite Z.pow_0_r, Z.mul_1_r in Hlow.
    assert (Hsplit : 2 ^ 52 = 2 ^ x * 2 ^ (52 - x)).
    { rewrite <- Z.pow_add_r by lia. f_equal; lia. }
    assert (0 < 2 ^ x) by (apply Z.pow_pos_nonneg; lia).
    assert (0 < 2 ^ (52 - x)) by (apply Z.pow_pos_nonneg; lia).
    change (2 ^ 53) with (2 * 2 ^ 52) in Hn. nia.
  - rewrite (Z.max_l 0 x), (Z.max_r 0 (- x)) in Hlow by lia.
    rewrite Z.pow_0_r, Z.mul_1_r in Hlow.
    assert (Hsplit : 2 ^ (52 - x) = 2 ^ 52 * 2 ^ (- x)).
    { rewrite <- Z.pow_add_r by lia. f_equal; lia. }
    assert (0 < 2 ^ (- x)) by (apply Z.pow_pos_nonneg; lia).
    change (2 ^ 53) with (2 * 2 ^ 52) in Hn. nia.
Qed.

Lemma round_magnitude_ceiling (n d : Z) :
  0 < n < 2 ^ 53 -> 0 < d < 2 ^ 53 ->
  exists q,
    round_magnitude n d = Finite q
    /\ (Qceiling q - 1) * d < n <= Qceiling q * d.
Proof.
  intros Hn Hd.
  destruct (mantissa_scale n d Hn Hd) as (He & Hs & Hwide).
  unfold round_magnitude, scaled. rewrite He.
  set (s := 52 - binade n d) in *.
  replace (- (binade n d - 52)) with s by (unfold s; lia).
  rewrite (Z.max_r 0 s), (Z.max_l 0 (binade n d - 52)) by lia.
  rewrite Z.pow_0_r, !Z.mul_1_r.
  assert (HS : 0 < 2 ^ s) by (apply Z.pow_pos_nonneg; lia).
  assert (HS' : 2 ^ s <= 2 ^ 105) by (apply Z.pow_le_mono_r; lia).
  set (S := 2 ^ s) in *.
  pose proof (Z.div_mod (n * S) d ltac:(lia)) as Hdiv.
  pose proof (Z.mod_pos_bound (n * S) d ltac:(lia)) as Hmod.
  destruct (round_half_even_cases (n * S) d ltac:(lia)) as [[Hm Hr]|[Hm Hr]];
    set (m := round_half_even (n * S) d) in *;
    set (m0 := n * S / d) in *; set (r := (n * S) mod d) in *.
  all: assert (Hm0 : 0 <= m0 <= n * S)
         by (split; [apply Z.div_pos; nia
                    | apply Z.div_le_upper_bound; nia]).
  all: assert (Hsmall : (2 ^ 1024 <=? m) = false)
         by (apply Z.leb_gt;
             assert (n * S < 2 ^ 53 * 2 ^ 105) by nia;
             assert (2 ^ 53 * 2 ^ 105 + 1 < 2 ^ 1024) by (vm_compute; reflexivity);
             lia).
  all: rewrite Hsmall; eexists; split; [reflexivity|].
  all: pose proof (ceiling_fraction m S HS) as Hc;
       set (c := Qceiling (m # Z.to_pos S)) in *.
  - split; nia.
  - split; nia.
Qed.

Lemma count_pages_ceiling (t p n : Z) :
  0 <= t < 2 ^ 53 ->
  0 < p < 2 ^ 53 ->
  count_pages (PInt t) (PInt p) = Ok n ->
  (n - 1) * p < t <= n * p.
Proof.
  intros Ht Hp. unfold count_pages, py_truediv.
  cbn [py_number is_int andb].
  assert (Hz : Qeq_bool (inject_Z p) 0 = false).
  { destruct (Qeq_bool (inject_Z p) 0) eqn:E; [|reflexivity].
    apply Qeq_bool_iff in E. unfold Qeq in E. cbn in E. lia. }
  rewrite Hz. unfold round_double.
  destruct p as [|p'|p']; try lia.
  destruct t as [|t'|t']; try lia.
  - cbn. intros H. injection H as <-. cbn. lia.
  - cbn [inject_Z Qdiv Qmult Qinv Qnum Qden Z.mul Pos.mul].
    rewrite Pos.mul_1_r.
    destruct (round_magnitude_ceiling (Z.pos t') (Z.pos p')
                ltac:(lia) Hp) as (q & -> & Hq).
    cbn [obind math_ceil]. intros H. injection H as <-. exact Hq.
Qed.

Lemma get_supplier_name_frame (inn : string) (w : world) (v : pyval) (w' : world) :
  get_supplier_name inn w = (Ok v, w') ->
  sent w' = (sent w ++ [supplier_url inn])%list
  /\ remote w' = remote w /\ files w' = files w.
Proof.
  intros H. destruct (get_supplier_name_total inn w) as (v0 & w0 & H0 & Hframe).
  rewrite H in H0. injection H0 as <- <-. exact Hframe.
Qed.

Lemma pages_served_world (url : string) (w1 w2 : world) (history : list string)
    (pages : list Z) (results : list (list pyval)) :
  remote w1 = remote w2 ->
  files w1 = files w2 ->
  pages_served url w1 history pages results ->
  pages_served url w2 history pages results.
Proof.
  intros Hremote Hfiles.
  induction 1 as [history
                 |history page pages r body section contracts result results
                    Hr Hj Hs Hc Hf _ IH].
  - constructor.
  - eapply served_next; eauto.
    + rewrite <- Hremote. exact Hr.
    + rewrite filter_media_contracts_run in Hf |- *. cbn [fst] in Hf |- *.
      rewrite <- Hfiles. exact Hf.
Qed.

Lemma pages_served_length (url : string) (w : world) (history : list string)
    (pages : list Z) (results : list (list pyval)) :
  pages_served url w history pages results ->
  List.length pages = List.length results.
Proof.
  induction 1; cbn; [reflexivity | congruence].
Qed.

Lemma fetch_pages_inv (url : string) (pages : list Z) :
  forall (acc : list pyval) (w : world) (out : list pyval) (w' : world),
    fetch_pages url pages acc w = (Ok out, w') ->
    exists results,
      pages_served url w (sent w) pages results
      /\ out = (acc ++ List.concat results)%list
      /\ sent w' = (sent w ++ map (page_url url) pages)%list.
Proof.
  induction pages as [|page pages IH]; intros acc w out w' H.
  - cbn in H. injection H as <- <-. exists []. cbn. rewrite !app_nil_r.
    split; [constructor | auto].
  - cbn [fetch_pages] in H. unfold bind, requests_get, lift in H.
    destruct (remote w (sent w) (page_url url page)) as [r|] eqn:Hr;
      [|discriminate].
    destruct (json r) as [body|] eqn:Hj; [|discriminate].
    destruct (py_getitem body "contracts") as [section|] eqn:Hs; [|discriminate].
    destruct (py_getitem section "data") as [contracts|] eqn:Hc; [|discriminate].
    pose proof (filter_media_contracts_run contracts
                  (log_request (page_url url page) w)) as Hrun.
    destruct (filter_media_contracts contracts (log_request (page_url url page) w))
      as [[found|] w1] eqn:Hf; [|discriminate].
    injection Hrun as Hfound ->.
    destruct (IH _ _ _ _ H) as (results & Hserved & -> & Hsent).
    exists (found :: results). split; [|split].
    + eapply served_next; eauto.
      * rewrite filter_media_contracts_run. cbn [fst]. symmetry. exact Hfound.
      * eapply pages_served_world; [| |exact Hserved]; reflexivity.
    + cbn [List.concat]. rewrite app_assoc. reflexivity.
    + rewrite Hsent. cbn [log_request sent map]. rewrite <- app_assoc. reflexivity.
Qed.

Lemma get_contracts_by_inn_triple
    (inn : string) (w : world) (name total : pyval) (all : list pyval) (w' : world) :
  get_contracts_by_inn inn w = (Ok (Triple name total all), w') ->
  exists r body data per_page n results,
    remote w (sent w ++ [supplier_url inn]) (contracts_url inn) = Ok r
    /\ json r = Ok body
    /\ py_getitem body "contracts" = Ok data
    /\ py_getitem data "total" = Ok total
    /\ py_getitem data "perpage" = Ok per_page
    /\ count_pages total per_page = Ok n
    /\ pages_served (contracts_url inn) w
         (sent w ++ [supplier_url inn; contracts_url inn])
         (py_range 1 (n + 1)) results
    /\ all = List.concat results
    /\ sent w' = (sent w ++ [supplier_url inn; contracts_url inn]
                  ++ map (page_url (contracts_url inn)) (py_range 1 (n + 1)))%list.
Proof.
  intros H. unfold get_contracts_by_inn, bind in H.
  destruct (get_supplier_name inn w) as [[v|] w1] eqn:Hname; [|discriminate].
  destruct (get_supplier_name_frame inn w v w1 Hname) as (Hsent & Hremote & Hfiles).
  assert (Hfetch : fetch_contracts inn v w1 = (Ok (Triple name total all), w')).
  { destruct v; try discriminate; unfold lift in H;
      match type of H with
      | context [py_in ?a ?b] => destruct (py_in a b) as [[|]|]
      end; try discriminate; exact H. }
  clear H. unfold fetch_contracts, bind, requests_get, lift, ret in Hfetch.
  rewrite Hremote, Hsent in Hfetch.
  destruct (remote w (sent w ++ [supplier_url inn]) (contracts_url inn))
    as [r|] eqn:Hr; [|discriminate].
  destruct (json r) as [body|] eqn:Hj; [|discriminate].
  destruct (py_getitem body "contracts") as [data|] eqn:Hd; [|discriminate].
  destruct (py_getitem data "total") as [total'|] eqn:Ht; [|discriminate].
  destruct (py_getitem data "perpage") as [per_page|] eqn:Hp; [|discriminate].
  destruct (count_pages total' per_page) as [n|] eqn:Hn; [|discriminate].
  destruct (fetch_pages (contracts_url inn) (py_range 1 (n + 1)) []
              (log_request (contracts_url inn) w1)) as [[out|] w2] eqn:Hpages;
    [|discriminate].
  injection Hfetch as <- <- <- <-.
  destruct (fetch_pages_inv _ _ _ _ _ _ Hpages) as (results & Hserved & -> & Hlog).
  cbn [log_request sent] in Hserved, Hlog. rewrite Hsent in Hserved, Hlog.
  rewrite <- app_assoc in Hserved, Hlog. cbn [app] in Hserved, Hlog.
  exists r, body, data, per_page, n, results.
  repeat split; try assumption.
  - eapply pages_served_world; [| |exact Hserved]; cbn [log_request remote files];
      assumption.
  - rewrite Hlog, <- app_assoc. reflexivity.
Qed.

Lemma three_pages_run :
  get_contracts_by_inn sample_inn world_three_pages
  = (Ok (Triple (PStr "ООО Ромашка") (PInt 250)
           [entry_ads; entry_bare; entry_bare; entry_ads]),
     snd (get_contracts_by_inn sample_inn world_three_pages)).
Proof.
  assert (H : fst (get_contracts_by_inn sample_inn world_three_pages)
              = Ok (Triple (PStr "ООО Ромашка") (PInt 250)
                      [entry_ads; entry_bare; entry_bare; entry_ads]))
    by (vm_compute; reflexivity).
  destruct (get_contracts_by_inn sample_inn world_three_pages) as [o w'].
  cbn [fst snd] in *. rewrite H. reflexivity.
Defined.

(** C4, as the code has it.  In a run of [get_contracts_by_inn] that
    returns the triple, the total and the page size are those of the first
    contracts request, the number of pages [n] is [math.ceil(total /
    per_page)] as computed in double arithmetic (for integers below
    [2 ^ 53] this is the exact ceiling: [(n - 1) * per_page < total <= n *
    per_page]), and after the lookup and that first request the run asks
    for the pages [1], ..., [n], each once and in this order, and for
    nothing else.  With 250 contracts at 100 a page these are the pages 1,
    2 and 3. *)
Theorem one_request_per_page
    (inn : string) (w : world) (name total : pyval) (all : list pyval) (w' : world) :
  get_contracts_by_inn inn w = (Ok (Triple name total all), w') ->
  exists r body data per_page n,
    remote w (sent w ++ [supplier_url inn]) (contracts_url inn) = Ok r
    /\ json r = Ok body
    /\ py_getitem body "contracts" = Ok data
    /\ py_getitem data "total" = Ok total
    /\ py_getitem data "perpage" = Ok per_page
    /\ count_pages total per_page = Ok n
    /\ (forall t p, total = PInt t -> per_page = PInt p ->
                    0 <= t < 2 ^ 53 -> 0 < p < 2 ^ 53 ->
                    (n - 1) * p < t <= n * p)
    /\ sent w' = (sent w ++ [supplier_url inn; contracts_url inn]
                  ++ map (fun k => page_url (contracts_url inn) (Z.of_nat k))
                         (seq 1 (Z.to_nat n)))%list
    /\ (total = PInt 250 -> per_page = PInt 100 ->
        sent w' = (sent w ++ [supplier_url inn; contracts_url inn;
                              page_url (contracts_url inn) 1;
                              page_url (contracts_url inn) 2;
                              page_url (contracts_url inn) 3])%list).
Proof.
  intros H.
  destruct (get_contracts_by_inn_triple inn w name total all w' H)
    as (r & body & data & per_page & n & results
        & Hr & Hj & Hd & Ht & Hp & Hn & _ & _ & Hsent).
  rewrite py_range_from_1, map_map in Hsent.
  exists r, body, data, per_page, n.
  repeat (split; [assumption|]). split; [|split].
  - intros t p -> -> Hsmall Hpos. apply count_pages_ceiling; assumption.
  - exact Hsent.
  - intros -> ->. vm_compute in Hn. injection Hn as <-. exact Hsent.
Qed.

Lemma one_request_per_page_witness :
  exists r body data per_page n,
    remote world_three_pages (sent world_three_pages ++ [supplier_url sample_inn])
           (contracts_url sample_inn) = Ok r
    /\ json r = Ok body
    /\ py_getitem body "contracts" = Ok data
    /\ py_getitem data "total" = Ok (PInt 250)
    /\ py_getitem data "perpage" = Ok per_page
    /\ count_pages (PInt 250) per_page = Ok n
    /\ (forall t p, PInt 250 = PInt t -> per_page = PInt p ->
                    0 <= t < 2 ^ 53 -> 0 < p < 2 ^ 53 ->
                    (n - 1) * p < t <= n * p)
    /\ sent (snd (get_contracts_by_inn sample_inn world_three_pages))
       = (sent world_three_pages ++ [supplier_url sample_inn; contracts_url sample_inn]
          ++ map (fun k => page_url (contracts_url sample_inn) (Z.of_nat k))
                 (seq 1 (Z.to_nat n)))%list
    /\ (PInt 250 = PInt 250 -> per_page = PInt 100 ->
        sent (snd (get_contracts_by_inn sample_inn world_three_pages))
        = (sent world_three_pages
           ++ [supplier_url sample_inn; contracts_url sample_inn;
               page_url (contracts_url sample_inn) 1;
               page_url (contracts_url sample_inn) 2;
               page_url (contracts_url sample_inn) 3])%list).
Proof.
  exact (one_request_per_page sample_inn world_three_pages _ _ _ _ three_pages_run).
Defined.

(** C4, as stated, fails twice over.  A lookup that succeeds does not
    make every page requested: with three pages announced and the second
    one timing out, the run stops there and never asks for page 3.  And the
    page count is taken in double arithmetic: with a total of [10 ^ 17 + 1]
    at [10 ^ 17] a page the quotient rounds to [1.0], so the run returns the
    triple after page 1 alone, although one page does not hold the total. *)
Lemma pages_left_unrequested :
  (fst (get_supplier_name sample_inn world_page_two_down) = Ok (PStr "ООО Ромашка")
   /\ count_pages (PInt 250) (PInt 100) = Ok 3
   /\ sent (snd (get_contracts_by_inn sample_inn world_page_two_down))
      = [supplier_url sample_inn; contracts_url sample_inn;
         page_url (contracts_url sample_inn) 1;
         page_url (contracts_url sample_inn) 2]
   /\ ~ In (page_url (contracts_url sample_inn) 3)
           (sent (snd (get_contracts_by_inn sample_inn world_page_two_down))))
  /\ (fst (get_contracts_by_inn sample_inn world_wide_total)
      = Ok (Triple (PStr "ООО Ромашка") (PInt (10 ^ 17 + 1)) [entry_ads; entry_bare])
      /\ sent (snd (get_contracts_by_inn sample_inn world_wide_total))
         = [supplier_url sample_inn; contracts_url sample_inn;
            page_url (contracts_url sample_inn) 1]
      /\ 1 * 10 ^ 17 < 10 ^ 17 + 1).
Proof.
  assert (Hlog : sent (snd (get_contracts_by_inn sample_inn world_page_two_down))
                 = [supplier_url sample_inn; contracts_url sample_inn;
                    page_url (contracts_url sample_inn) 1;
                    page_url (contracts_url sample_inn) 2])
    by (vm_compute; reflexivity).
  split.
  - split; [vm_compute; reflexivity|]. split; [vm_compute; reflexivity|].
    split; [exact Hlog|]. rewrite Hlog. vm_compute.
    intros [H|[H|[H|[H|[]]]]]; discriminate H.
  - split; [vm_compute; reflexivity|]. split; [vm_compute; reflexivity|].
    vm_compute. reflexivity.
Qed.

(** C10.  Entries keep the order of their contracts: the entries of a page
    made of two parts are the entries of the first part followed by those
    of the second.  And in a run of [get_contracts_by_inn] that returns the
    triple, with [n] the page count computed from the first contracts
    request, the run asks for the pages [1], ..., [n] in ascending order and
    the list returned is the concatenation, in that order, of what
    [filter_media_contracts] returns for the contracts served page by
    page. *)
Theorem results_keep_order :
  (forall (front back : list pyval) (w : world) (out : list pyval),
      fst (filter_media_contracts (PList (front ++ back)) w) = Ok out ->
      exists out1 out2,
        fst (filter_media_contracts (PList front) w) = Ok out1
        /\ fst (filter_media_contracts (PList back) w) = Ok out2
        /\ out = (out1 ++ out2)%list)
  /\ (forall (inn : string) (w : world) (name total : pyval) (all : list pyval)
             (w' : world),
         get_contracts_by_inn inn w = (Ok (Triple name total all), w') ->
         exists per_page n results,
           contracts_header inn w total per_page
           /\ count_pages total per_page = Ok n
           /\ sent w' = (sent w ++ [supplier_url inn; contracts_url inn]
                         ++ pages_upto (contracts_url inn) (Z.to_nat n))%list
           /\ pages_served (contracts_url inn) w
                 (sent w ++ [supplier_url inn; contracts_url inn])
                 (map Z.of_nat (seq 1 (Z.to_nat n))) results
           /\ List.length results = Z.to_nat n
           /\ all = List.concat results).
Proof.
  split.
  - exact filter_media_contracts_app.
  - intros inn w name total all w' H.
    destruct (get_contracts_by_inn_triple inn w name total all w' H)
      as (r & body & data & per_page & n & results
          & Hr & Hj & Hd & Ht & Hp & Hn & Hserved & Hall & Hsent).
    rewrite py_range_from_1 in Hserved, Hsent. rewrite map_map in Hsent.
    exists per_page, n, results.
    split; [exists r, body, data; auto|]. split; [exact Hn|].
    split; [exact Hsent|]. split; [exact Hserved|]. split; [|exact Hall].
    rewrite <- (pages_served_length _ _ _ _ _ Hserved), length_map, length_seq.
    reflexivity.
Qed.

Lemma results_keep_order_witness :
  (exists out1 out2,
      fst (filter_media_contracts (PList [contract_ads; contract_paper]) world_page)
      = Ok out1
      /\ fst (filter_media_contracts (PList [contract_bare]) world_page) = Ok out2
      /\ [entry_ads; entry_bare] = (out1 ++ out2)%list)
  /\ (exists per_page n results,
         contracts_header sample_inn world_three_pages (PInt 250) per_page
         /\ count_pages (PInt 250) per_page = Ok n
         /\ sent (snd (get_contracts_by_inn sample_inn world_three_pages))
            = (sent world_three_pages
               ++ [supplier_url sample_inn; contracts_url sample_inn]
               ++ pages_upto (contracts_url sample_inn) (Z.to_nat n))%list
         /\ pages_served (contracts_url sample_inn) world_three_pages
              (sent world_three_pages ++ [supplier_url sample_inn; contracts_url sample_inn])
              (map Z.of_nat (seq 1 (Z.to_nat n))) results
         /\ List.length results = Z.to_nat n
         /\ [entry_ads; entry_bare; entry_bare; entry_ads] = List.concat results).
Proof.
  split.
  - apply (proj1 results_keep_order [contract_ads; contract_paper] [contract_bare]
             world_page).
    vm_compute. reflexivity.
  - exact (proj2 results_keep_order sample_inn world_three_pages _ _ _ _
             three_pages_run).
Defined.

(** * Further properties *)

(** ** Substrings *)

Lemma prefix_spec (needle hay : string) :
  String.prefix needle hay = true <-> exists post, hay = needle ++ post.
Proof.
  revert hay. induction needle as [|c needle IH]; intros hay.
  - split; [intros _; exists hay; reflexivity|].
    intros _. destruct hay; reflexivity.
  - destruct hay as [|c' hay]; simpl.
    + split; [discriminate | intros [post H]; discriminate H].
    + destruct (ascii_dec c c') as [<-|Hne].
      * rewrite IH. split; intros [post H]; exists post.
        -- rewrite H. reflexivity.
        -- simpl in H. injection H as ->. reflexivity.
      * split; [discriminate|]. intros [post H]. simpl in H.
        injection H as Hc _. congruence.
Qed.

Lemma str_contains_spec (needle hay : string) :
  str_contains needle hay = true
  <-> exists pre post, hay = pre ++ needle ++ post.
Proof.
  split.
  - induction hay as [|c hay IH]; cbn [str_contains].
    + destruct (String.prefix needle "") eqn:Hp; [|discriminate].
      intros _. apply prefix_spec in Hp. destruct Hp as [post Hp].
      exists "", post. exact Hp.
    + destruct (String.prefix needle (String c hay)) eqn:Hp.
      * intros _. apply prefix_spec in Hp. destruct Hp as [post Hp].
        exists "", post. exact Hp.
      * intros H. destruct (IH H) as (pre & post & ->).
        exists (String c pre), post. reflexivity.
  - intros (pre & post & ->). induction pre as [|c pre IH].
    + apply str_contains_prefix. exact (prefix_app needle post).
    + change (String c pre ++ needle ++ post)
        with (String c (pre ++ needle ++ post)).
      cbn [str_contains]. rewrite IH.
      destruct (String.prefix needle _); reflexivity.
Qed.

(** ** The supplier lookup as a whole *)

Lemma get_supplier_name_cases (inn : string) (w : world) :
  (exists v, get_supplier_name inn w = (Ok v, log_request (supplier_url inn) w))
  \/ (exists e, get_supplier_name inn w
                = (Ok PNone, log_print e (log_request (supplier_url inn) w))).
Proof.
  unfold get_supplier_name, try_except, supplier_name_body, bind, requests_get,
         lift, print, ret.
  destruct (remote w (sent w) (supplier_url inn)) as [r|e]; [|eauto].
  destruct (status_code r =? 404); [eauto|].
  destruct (json r) as [data|e]; [|eauto].
  destruct (first_name data) as [name|e]; eauto.
Qed.

(** X1.  [get_supplier_name] never raises.  It sends the lookup request
    and nothing else, leaves server and files alone, and prints either
    nothing or the one exception it caught, in which case it returns
    [None]. *)
Theorem get_supplier_name_never_raises (inn : string) (w : world) :
  exists v w',
    get_supplier_name inn w = (Ok v, w')
    /\ sent w' = (sent w ++ [supplier_url inn])%list
    /\ remote w' = remote w
    /\ files w' = files w
    /\ (printed w' = printed w
        \/ (v = PNone /\ exists e, printed w' = (printed w ++ [e])%list)).
Proof.
  destruct (get_supplier_name_cases inn w) as [[v H]|[e H]]; rewrite H.
  - exists v, (log_request (supplier_url inn) w). auto 10.
  - exists PNone, (log_print e (log_request (supplier_url inn) w)).
    repeat (split; [reflexivity|]). right. split; [reflexivity|].
    exists e. reflexivity.
Qed.

(** X2.  Run as a script, the module looks up the supplier 7826159654: it
    sends that one request, whatever the server does, and ends without an
    exception. *)
Theorem main_sends_one_lookup (w : world) :
  exists w',
    main w = (Ok tt, w')
    /\ sent w'
       = (sent w
          ++ ["http://openapi.clearspending.ru/restapi/v3/suppliers/get/?inn=7826159654"])%list
    /\ remote w' = remote w
    /\ files w' = files w.
Proof.
  unfold main, bind, ret.
  destruct (get_supplier_name_total (format_int 7826159654) w)
    as (v & w' & H & Hsent & Hremote & Hfiles).
  rewrite H. exists w'. auto.
Qed.

(** X3.  A lookup that succeeds with a number or a boolean for a name
    makes [get_contracts_by_inn] raise [TypeError]: the test for the
    not-found phrase is outside the [try].  No contracts request is sent. *)
Theorem numeric_name_raises_type_error
    (inn : string) (w : world) (r : response) (data name : pyval) (q : Q) :
  remote w (sent w) (supplier_url inn) = Ok r ->
  status_code r <> 404 ->
  json r = Ok data ->
  first_name data = Ok name ->
  py_number name = Some q ->
  get_contracts_by_inn inn w
  = (Raise TypeError, log_request (supplier_url inn) w).
Proof.
  intros Hr Hs Hj Hn Hq. unfold get_contracts_by_inn, bind.
  rewrite (get_supplier_name_found inn w r data name Hr Hs Hj Hn).
  destruct name; try discriminate; reflexivity.
Qed.

Lemma numeric_name_raises_type_error_witness :
  get_contracts_by_inn sample_inn world_numeric_name
  = (Raise TypeError, log_request (supplier_url sample_inn) world_numeric_name).
Proof.
  refine (numeric_name_raises_type_error sample_inn world_numeric_name
            (mkResponse 200
               (Ok (supplier_payload [("allNames", PList [PInt 7826159654])])))
            _ (PInt 7826159654) (inject_Z 7826159654) _ _ _ _ _);
    try reflexivity.
  discriminate.
Defined.

(** ** The fetch, step by step *)

Lemma log_requests_nil (w : world) : log_requests [] w = w.
Proof. destruct w. unfold log_requests. cbn. rewrite app_nil_r. reflexivity. Qed.

Lemma log_requests_app (front back : list string) (w : world) :
  log_requests back (log_requests front w) = log_requests (front ++ back) w.
Proof. unfold log_requests. cbn. rewrite app_assoc. reflexivity. Qed.

Lemma filter_media_contracts_frame (contracts : pyval) (w w' : world) :
  files w' = files w ->
  filter_media_contracts contracts w'
  = (fst (filter_media_contracts contracts w), w').
Proof.
  intros Hfiles. rewrite !filter_media_contracts_run. cbn [fst].
  rewrite Hfiles. reflexivity.
Qed.

Lemma get_contracts_by_inn_known (inn : string) (w : world) (name : pyval) :
  supplier_known inn w name ->
  get_contracts_by_inn inn w
  = fetch_contracts inn name (log_requests [supplier_url inn] w).
Proof.
  intros (r & data & Hr & Hs & Hj & Hn & Hnone & Hin).
  unfold get_contracts_by_inn, bind.
  rewrite (get_supplier_name_found inn w r data name Hr Hs Hj Hn).
  unfold lift. rewrite Hin.
  destruct name; try reflexivity. congruence.
Qed.

Lemma fetch_contracts_header
    (inn : string) (w : world) (name total per_page : pyval) :
  contracts_header inn w total per_page ->
  fetch_contracts inn name (log_requests [supplier_url inn] w)
  = match count_pages total per_page with
    | Ok n =>
        match fetch_pages (contracts_url inn) (py_range 1 (n + 1)) []
                (log_requests [supplier_url inn; contracts_url inn] w) with
        | (Ok all, w') => (Ok (Triple name total all), w')
        | (Raise e, w') => (Raise e, w')
        end
    | Raise e => (Raise e, log_requests [supplier_url inn; contracts_url inn] w)
    end.
Proof.
  intros (r & body & data & Hr & Hj & Hd & Ht & Hp).
  unfold fetch_contracts, bind, requests_get, lift, ret.
  cbn [log_requests remote sent]. rewrite Hr, Hj, Hd, Ht, Hp.
  change (log_request (contracts_url inn) (log_requests [supplier_url inn] w))
    with (log_requests [contracts_url inn] (log_requests [supplier_url inn] w)).
  rewrite log_requests_app. cbn [app].
  destruct (count_pages total per_page); reflexivity.
Qed.

Lemma page_fault_world (url : string) (w1 w2 : world) (history : list string)
    (page : Z) (e : exn) :
  remote w1 = remote w2 ->
  files w1 = files w2 ->
  page_fault url w1 history page e ->
  page_fault url w2 history page e.
Proof.
  intros Hremote Hfiles
         [Hr|r Hr Hj|r body Hr Hj Hs|r body section Hr Hj Hs Hd
         |r body section contracts Hr Hj Hs Hd Hf];
    rewrite Hremote in Hr.
  - apply page_request_fault; assumption.
  - eapply page_decode_fault; eassumption.
  - eapply page_section_fault; eassumption.
  - eapply page_data_fault; eassumption.
  - eapply page_filter_fault; try eassumption.
    rewrite (filter_media_contracts_frame contracts w1 w2) by (symmetry; exact Hfiles).
    exact Hf.
Qed.

Lemma fetch_pages_served (url : string) (pages : list Z) :
  forall (results : list (list pyval)) (acc : list pyval) (w : world),
    pages_served url w (sent w) pages results ->
    fetch_pages url pages acc w
    = (Ok (acc ++ List.concat results)%list,
       log_requests (map (page_url url) pages) w).
Proof.
  induction pages as [|page pages IH]; intros results acc w Hserved.
  - inversion Hserved; subst. cbn. rewrite app_nil_r, log_requests_nil.
    reflexivity.
  - inversion Hserved as [|history page' pages' r body section contracts result
                           results' Hr Hj Hs Hd Hf Hrest]; subst.
    cbn [fetch_pages]. unfold bind, requests_get, lift.
    rewrite Hr, Hj, Hs, Hd.
    rewrite (filter_media_contracts_frame contracts w) by reflexivity.
    rewrite Hf.
    rewrite (IH results' (acc ++ result)%list (log_request (page_url url page) w)).
    + cbn [List.concat map]. rewrite <- app_assoc.
      change (log_request (page_url url page) w)
        with (log_requests [page_url url page] w).
      rewrite log_requests_app. reflexivity.
    + eapply pages_served_world; [| |exact Hrest]; reflexivity.
Qed.

Lemma fetch_pages_fault (url : string) (page : Z) (back : list Z)
    (acc : list pyval) (w : world) (e : exn) :
  page_fault url w (sent w) page e ->
  fetch_pages url (page :: back) acc w
  = (Raise e, log_requests [page_url url page] w).
Proof.
  intros [Hr|r Hr Hj|r body Hr Hj Hs|r body section Hr Hj Hs Hd
         |r body section contracts Hr Hj Hs Hd Hf];
    cbn [fetch_pages]; unfold bind, requests_get, lift; rewrite Hr;
    try reflexivity; rewrite Hj; try reflexivity; rewrite Hs; try reflexivity;
    rewrite Hd; try reflexivity.
  rewrite (filter_media_contracts_frame contracts w) by reflexivity.
  rewrite Hf. reflexivity.
Qed.

Lemma fetch_pages_app (url : string) (front back : list Z) :
  forall (acc : list pyval) (w : world),
    fetch_pages url (front ++ back) acc w
    = match fetch_pages url front acc w with
      | (Ok mid, w') => fetch_pages url back mid w'
      | (Raise e, w') => (Raise e, w')
      end.
Proof.
  induction front as [|page front IH]; intros acc w; [reflexivity|].
  cbn [app fetch_pages]. unfold bind.
  destruct (requests_get (page_url url page) w) as [[r|] w1]; [|reflexivity].
  destruct (lift (json r) w1) as [[body|] w2]; [|reflexivity].
  destruct (lift (py_getitem body "contracts") w2) as [[section|] w3];
    [|reflexivity].
  destruct (lift (py_getitem section "data") w3) as [[contracts|] w4];
    [|reflexivity].
  destruct (filter_media_contracts contracts w4) as [[found|] w5];
    [|reflexivity].
  apply IH.
Qed.

Lemma pages_upto_map (url : string) (k : nat) :
  map (page_url url) (map Z.of_nat (seq 1 k)) = pages_upto url k.
Proof. unfold pages_upto. apply map_map. Qed.

Lemma pages_upto_succ (url : string) (k : nat) :
  pages_upto url (S k)
  = (pages_upto url k ++ [page_url url (Z.of_nat (S k))])%list.
Proof.
  unfold pages_upto. rewrite seq_S, map_app. reflexivity.
Qed.

Section Fetch.

Variables (inn : string) (w : world) (name total per_page : pyval).

Hypothesis Hknown : supplier_known inn w name.
Hypothesis Hheader : contracts_header inn w total per_page.

Lemma started_served (pages : list Z) (results : list (list pyval)) :
  pages_served (contracts_url inn) w
               (sent w ++ [supplier_url inn; contracts_url inn]) pages results ->
  pages_served (contracts_url inn)
               (log_requests [supplier_url inn; contracts_url inn] w)
               (sent (log_requests [supplier_url inn; contracts_url inn] w))
               pages results.
Proof.
  intros H. eapply pages_served_world; [| |exact H]; reflexivity.
Qed.

Lemma run_with_pages (n : Z) :
  count_pages total per_page = Ok n ->
  get_contracts_by_inn inn w
  = match fetch_pages (contracts_url inn) (map Z.of_nat (seq 1 (Z.to_nat n))) []
                      (log_requests [supplier_url inn; contracts_url inn] w) with
    | (Ok all, w') => (Ok (Triple name total all), w')
    | (Raise e, w') => (Raise e, w')
    end.
Proof.
  intros Hn.
  rewrite (get_contracts_by_inn_known inn w name Hknown).
  rewrite (fetch_contracts_header inn w name total per_page Hheader).
  rewrite Hn, py_range_from_1. reflexivity.
Qed.

Lemma run_without_count (e : exn) :
  count_pages total per_page = Raise e ->
  get_contracts_by_inn inn w
  = (Raise e, log_requests [supplier_url inn; contracts_url inn] w).
Proof.
  intros Hn.
  rewrite (get_contracts_by_inn_known inn w name Hknown).
  rewrite (fetch_contracts_header inn w name total per_page Hheader).
  rewrite Hn. reflexivity.
Qed.

Lemma run_all_served (n : Z) (results : list (list pyval)) :
  count_pages total per_page = Ok n ->
  pages_served (contracts_url inn) w (sent w ++ [supplier_url inn; contracts_url inn])
               (map Z.of_nat (seq 1 (Z.to_nat n))) results ->
  get_contracts_by_inn inn w
  = (Ok (Triple name total (List.concat results)),
     log_requests ([supplier_url inn; contracts_url inn]
                   ++ pages_upto (contracts_url inn) (Z.to_nat n)) w).
Proof.
  intros Hn Hserved. rewrite (run_with_pages n Hn).
  rewrite (fetch_pages_served (contracts_url inn) _ results [] _
             (started_served _ _ Hserved)).
  rewrite log_requests_app, pages_upto_map. reflexivity.
Qed.

Lemma run_page_fault (n : Z) (k : nat) (results : list (list pyval)) (e : exn) :
  count_pages total per_page = Ok n ->
  (k < Z.to_nat n)%nat ->
  pages_served (contracts_url inn) w (sent w ++ [supplier_url inn; contracts_url inn])
               (map Z.of_nat (seq 1 k)) results ->
  page_fault (contracts_url inn) w
             (sent w ++ [supplier_url inn; contracts_url inn]
              ++ pages_upto (contracts_url inn) k)
             (Z.of_nat (S k)) e ->
  get_contracts_by_inn inn w
  = (Raise e,
     log_requests ([supplier_url inn; contracts_url inn]
                   ++ pages_upto (contracts_url inn) (S k)) w).
Proof.
  intros Hn Hk Hserved Hfault. rewrite (run_with_pages n Hn).
  replace (Z.to_nat n) with (k + S (Z.to_nat n - S k))%nat by lia.
  rewrite seq_app, map_app. cbn [seq map].
  change (1 + k)%nat with (S k). rewrite fetch_pages_app.
  rewrite (fetch_pages_served (contracts_url inn) _ results [] _
             (started_served _ _ Hserved)).
  rewrite (fetch_pages_fault (contracts_url inn) _ _ _ _ e).
  - rewrite !log_requests_app, pages_upto_map, pages_upto_succ.
    reflexivity.
  - cbn [log_requests sent]. rewrite pages_upto_map, <- app_assoc.
    eapply (page_fault_world _ w); [reflexivity | reflexivity | exact Hfault].
Qed.

End Fetch.

(** X4.  When the supplier is known, the first contracts request reports
    [total] and [per_page], and each of the pages [1], ..., [n] is served
    and filtered without an exception, [get_contracts_by_inn] returns the
    triple of the name, the reported total and the page results joined in
    page order, having sent the lookup, the first request and one request
    for each page. *)
Theorem served_pages_give_triple
    (inn : string) (w : world) (name total per_page : pyval) (n : Z)
    (results : list (list pyval)) :
  supplier_known inn w name ->
  contracts_header inn w total per_page ->
  count_pages total per_page = Ok n ->
  pages_served (contracts_url inn) w
               (sent w ++ [supplier_url inn; contracts_url inn])
               (map Z.of_nat (seq 1 (Z.to_nat n))) results ->
  get_contracts_by_inn inn w
  = (Ok (Triple name total (List.concat results)),
     log_requests ([supplier_url inn; contracts_url inn]
                   ++ pages_upto (contracts_url inn) (Z.to_nat n)) w).
Proof.
  intros Hknown Hheader.
  exact (run_all_served inn w name total per_page Hknown Hheader n results).
Qed.

(** X5.  A failure on one page loses the whole run: when the pages before
    page [k + 1] are served and page [k + 1] fails (its request raises, its
    body does not decode or lacks [contracts] or [data], or the filter
    raises on it), [get_contracts_by_inn] raises that exception, returns
    none of the entries gathered so far and asks for no later page. *)
Theorem page_fault_aborts_run
    (inn : string) (w : world) (name total per_page : pyval) (n : Z) (k : nat)
    (results : list (list pyval)) (e : exn) :
  supplier_known inn w name ->
  contracts_header inn w total per_page ->
  count_pages total per_page = Ok n ->
  (k < Z.to_nat n)%nat ->
  pages_served (contracts_url inn) w
               (sent w ++ [supplier_url inn; contracts_url inn])
               (map Z.of_nat (seq 1 k)) results ->
  page_fault (contracts_url inn) w
             (sent w ++ [supplier_url inn; contracts_url inn]
              ++ pages_upto (contracts_url inn) k)
             (Z.of_nat (S k)) e ->
  get_contracts_by_inn inn w
  = (Raise e,
     log_requests ([supplier_url inn; contracts_url inn]
                   ++ pages_upto (contracts_url inn) (S k)) w).
Proof.
  intros Hknown Hheader.
  exact (run_page_fault inn w name total per_page Hknown Hheader n k results e).
Qed.

(** X6.  A reported page size of zero makes [get_contracts_by_inn] raise
    [ZeroDivisionError] right after the first contracts request, when the
    total is a float, or when total and page size are both integers. *)
Theorem zero_page_size_raises
    (inn : string) (w : world) (name total per_page : pyval) (p : Q) :
  supplier_known inn w name ->
  contracts_header inn w total per_page ->
  py_number per_page = Some p ->
  (p == 0)%Q ->
  (exists q, total = PFloat q) \/ (is_int total = true /\ is_int per_page = true) ->
  get_contracts_by_inn inn w
  = (Raise ZeroDivisionError,
     log_requests [supplier_url inn; contracts_url inn] w).
Proof.
  intros Hknown Hheader Hp Hzero Hkind.
  apply (run_without_count inn w name total per_page Hknown Hheader).
  assert (Hq : Qeq_bool p 0 = true) by (apply Qeq_bool_iff; exact Hzero).
  assert (Hnum : Qnum p = 0).
  { unfold Qeq in Hzero. cbn in Hzero. lia. }
  unfold count_pages, py_truediv. rewrite Hp.
  destruct Hkind as [[q ->]|[Ht Hi]].
  - cbn [py_number is_int andb to_double obind]. unfold to_double.
    destruct (is_int per_page).
    + unfold round_double. rewrite Hnum. reflexivity.
    + cbn [obind]. rewrite Hq. reflexivity.
  - rewrite Ht, Hi. cbn [andb].
    destruct total; try discriminate Ht; cbn [py_number]; rewrite Hq;
      reflexivity.
Qed.

(** X7.  A total or a page size that is not a number (a text, a null, a
    list, ...) makes [get_contracts_by_inn] raise [TypeError] right after
    the first contracts request. *)
Theorem non_numeric_header_raises
    (inn : string) (w : world) (name total per_page : pyval) :
  supplier_known inn w name ->
  contracts_header inn w total per_page ->
  py_number total = None \/ py_number per_page = None ->
  get_contracts_by_inn inn w
  = (Raise TypeError, log_requests [supplier_url inn; contracts_url inn] w).
Proof.
  intros Hknown Hheader Hnum.
  apply (run_without_count inn w name total per_page Hknown Hheader).
  unfold count_pages, py_truediv.
  destruct Hnum as [H|H]; rewrite H; [|destruct (py_number total)]; reflexivity.
Qed.

(** X8.  When the page count is zero or less (a supplier without
    contracts), [get_contracts_by_inn] returns the name, the reported total
    and an empty list after the lookup and the first contracts request; no
    page is asked for and the reference files are never read. *)
Theorem no_pages_no_entries
    (inn : string) (w : world) (name total per_page : pyval) (n : Z) :
  supplier_known inn w name ->
  contracts_header inn w total per_page ->
  count_pages total per_page = Ok n ->
  n <= 0 ->
  get_contracts_by_inn inn w
  = (Ok (Triple name total []),
     log_requests [supplier_url inn; contracts_url inn] w).
Proof.
  intros Hknown Hheader Hn Hle.
  rewrite (run_all_served inn w name total per_page Hknown Hheader n [] Hn).
  - replace (Z.to_nat n) with 0%nat by lia. reflexivity.
  - replace (Z.to_nat n) with 0%nat by lia. constructor.
Qed.

(** ** The request log of any run *)

Lemma firstn_seq_from (k start len : nat) :
  firstn k (seq start len) = seq start (Nat.min k len).
Proof.
  revert start len. induction k as [|k IH]; intros start [|len]; cbn;
    try reflexivity.
  rewrite IH. reflexivity.
Qed.

Lemma filter_media_contracts_world (contracts : pyval) (w : world) :
  snd (filter_media_contracts contracts w) = w.
Proof. rewrite filter_media_contracts_run. reflexivity. Qed.

Lemma fetch_pages_log (url : string) (pages : list Z) :
  forall (acc : list pyval) (w : world),
    exists k,
      snd (fetch_pages url pages acc w)
      = log_requests (map (page_url url) (firstn k pages)) w.
Proof.
  induction pages as [|page pages IH]; intros acc w.
  - exists 0%nat. cbn. rewrite log_requests_nil. reflexivity.
  - assert (Hone : log_request (page_url url page) w
                   = log_requests (map (page_url url) (firstn 1 (page :: pages))) w)
      by reflexivity.
    cbn [fetch_pages]. unfold bind, requests_get, lift.
    destruct (remote w (sent w) (page_url url page)) as [r|];
      [|exists 1%nat; exact Hone].
    destruct (json r) as [body|]; [|exists 1%nat; exact Hone].
    destruct (py_getitem body "contracts") as [section|];
      [|exists 1%nat; exact Hone].
    destruct (py_getitem section "data") as [contracts|];
      [|exists 1%nat; exact Hone].
    pose proof (filter_media_contracts_world contracts
                  (log_request (page_url url page) w)) as Hw.
    destruct (filter_media_contracts contracts (log_request (page_url url page) w))
      as [[found|] w1]; cbn [snd] in Hw; subst w1;
      [|exists 1%nat; exact Hone].
    destruct (IH (acc ++ found)%list (log_request (page_url url page) w))
      as [k Hk].
    exists (S k). rewrite Hk.
    change (log_request (page_url url page) w)
      with (log_requests [page_url url page] w).
    rewrite log_requests_app. reflexivity.
Qed.

Lemma fetch_contracts_log (inn : string) (name : pyval) (w : world) :
  (exists k,
      snd (fetch_contracts inn name w)
      = log_requests (contracts_url inn :: pages_upto (contracts_url inn) k) w)
  /\ (forall v, fst (fetch_contracts inn name w) <> Ok (Text v)).
Proof.
  assert (Hzero : log_request (contracts_url inn) w
                  = log_requests
                      (contracts_url inn :: pages_upto (contracts_url inn) 0) w)
    by reflexivity.
  unfold fetch_contracts, bind, requests_get, lift, ret.
  destruct (remote w (sent w) (contracts_url inn)) as [r|];
    [|split; [exists 0%nat; exact Hzero | discriminate]].
  destruct (json r) as [body|];
    [|split; [exists 0%nat; exact Hzero | discriminate]].
  destruct (py_getitem body "contracts") as [data|];
    [|split; [exists 0%nat; exact Hzero | discriminate]].
  destruct (py_getitem data "total") as [total|];
    [|split; [exists 0%nat; exact Hzero | discriminate]].
  destruct (py_getitem data "perpage") as [per_page|];
    [|split; [exists 0%nat; exact Hzero | discriminate]].
  destruct (count_pages total per_page) as [n|];
    [|split; [exists 0%nat; exact Hzero | discriminate]].
  destruct (fetch_pages_log (contracts_url inn) (py_range 1 (n + 1)) []
              (log_request (contracts_url inn) w)) as [k Hk].
  rewrite py_range_from_1 in Hk |- *.
  rewrite firstn_map, firstn_seq_from, pages_upto_map in Hk.
  destruct (fetch_pages (contracts_url inn) (map Z.of_nat (seq 1 (Z.to_nat n))) []
              (log_request (contracts_url inn) w)) as [[all|] w1];
    cbn [snd] in Hk; subst w1;
    change (log_request (contracts_url inn) w)
      with (log_requests [contracts_url inn] w);
    rewrite log_requests_app;
    (split; [exists (Nat.min k (Z.to_nat n)); reflexivity | discriminate]).
Qed.

(** X9.  Whatever the server answers and however the run ends, the
    requests of [get_contracts_by_inn] are the lookup alone, or the lookup,
    the first contracts request and the pages [1], ..., [k] in this order
    without gap or repetition.  Server and files are left alone and at most
    one exception is printed. *)
Theorem request_log_shape (inn : string) (w : world) :
  remote (snd (get_contracts_by_inn inn w)) = remote w
  /\ files (snd (get_contracts_by_inn inn w)) = files w
  /\ (sent (snd (get_contracts_by_inn inn w)) = (sent w ++ [supplier_url inn])%list
      \/ exists k,
           sent (snd (get_contracts_by_inn inn w))
           = (sent w ++ [supplier_url inn; contracts_url inn]
              ++ pages_upto (contracts_url inn) k)%list)
  /\ (printed (snd (get_contracts_by_inn inn w)) = printed w
      \/ exists e, printed (snd (get_contracts_by_inn inn w))
                   = (printed w ++ [e])%list).
Proof.
  unfold get_contracts_by_inn, bind.
  destruct (get_supplier_name_cases inn w) as [[v H]|[e H]]; rewrite H.
  - assert (Hstop : forall o : outcome reply,
               let w' := snd (o, log_request (supplier_url inn) w) in
               remote w' = remote w /\ files w' = files w
               /\ (sent w' = (sent w ++ [supplier_url inn])%list
                   \/ exists k,
                        sent w' = (sent w ++ [supplier_url inn; contracts_url inn]
                                   ++ pages_upto (contracts_url inn) k)%list)
               /\ (printed w' = printed w
                   \/ exists e, printed w' = (printed w ++ [e])%list))
      by (intros o; cbn; auto).
    destruct v; try exact (Hstop _); unfold lift;
      match goal with
      | |- context [py_in ?a ?b] => destruct (py_in a b) as [[|]|]
      end; try exact (Hstop _);
      match goal with
      | |- context [fetch_contracts inn ?v ?w1] =>
          destruct (fetch_contracts_log inn v w1) as [[k Hk] _]; rewrite Hk
      end;
      cbn [log_requests log_request remote files sent printed];
      (split; [reflexivity|]); (split; [reflexivity|]);
      (split; [right; exists k; rewrite <- app_assoc; reflexivity | left; reflexivity]).
  - cbn. repeat (split; [reflexivity|]). split; [left; reflexivity|].
    right. exists e. reflexivity.
Qed.

(** X10.  After a successful lookup whose name is a text without the
    not-found phrase, [get_contracts_by_inn] goes on to the contracts
    endpoint: the first contracts request is sent, and the call does not
    return a bare text. *)
Theorem name_without_phrase_fetches
    (inn : string) (w : world) (r : response) (data : pyval) (s : string) :
  remote w (sent w) (supplier_url inn) = Ok r ->
  status_code r <> 404 ->
  json r = Ok data ->
  first_name data = Ok (PStr s) ->
  ~ (exists pre post, s = pre ++ not_found_phrase ++ post) ->
  (exists k,
      sent (snd (get_contracts_by_inn inn w))
      = (sent w ++ [supplier_url inn; contracts_url inn]
         ++ pages_upto (contracts_url inn) k)%list)
  /\ (forall v, fst (get_contracts_by_inn inn w) <> Ok (Text v)).
Proof.
  intros Hr Hs Hj Hn Hfree.
  assert (Hknown : supplier_known inn w (PStr s)).
  { exists r, data. repeat (split; [assumption|]). split; [discriminate|].
    cbn [py_in]. f_equal. apply not_true_is_false.
    rewrite str_contains_spec. exact Hfree. }
  rewrite (get_contracts_by_inn_known inn w (PStr s) Hknown).
  destruct (fetch_contracts_log inn (PStr s) (log_requests [supplier_url inn] w))
    as [[k Hk] Hnot].
  split; [|exact Hnot].
  exists k. rewrite Hk. cbn [log_requests sent]. rewrite <- app_assoc.
  reflexivity.
Qed.

(** ** The statements above on the sample worlds *)

Lemma sample_supplier_known (w : world) :
  remote w (sent w) (supplier_url sample_inn) = snd known_supplier ->
  supplier_known sample_inn w (PStr "ООО Ромашка").
Proof.
  intros Hr. eexists _, _.
  split; [exact Hr|]. split; [discriminate|]. split; [reflexivity|].
  split; [reflexivity|]. split; [discriminate|]. vm_compute. reflexivity.
Qed.

Lemma sample_contracts_header (w : world) (total per_page : Z) (page : list pyval) :
  remote w (sent w ++ [supplier_url sample_inn]) (contracts_url sample_inn)
  = answer 200 (contracts_payload total per_page page) ->
  contracts_header sample_inn w (PInt total) (PInt per_page).
Proof.
  intros Hr. eexists _, _, _.
  split; [exact Hr|]. repeat (split; [reflexivity|]). reflexivity.
Qed.

Lemma served_pages_give_triple_witness :
  get_contracts_by_inn sample_inn world_three_pages
  = (Ok (Triple (PStr "ООО Ромашка") (PInt 250)
           [entry_ads; entry_bare; entry_bare; entry_ads]),
     log_requests ([supplier_url sample_inn; contracts_url sample_inn]
                   ++ pages_upto (contracts_url sample_inn) 3) world_three_pages).
Proof.
  refine (served_pages_give_triple sample_inn world_three_pages
            (PStr "ООО Ромашка") (PInt 250) (PInt 100) 3
            [[entry_ads; entry_bare]; []; [entry_bare; entry_ads]] _ _ _ _).
  - apply sample_supplier_known. reflexivity.
  - apply (sample_contracts_header _ _ _ sample_page). reflexivity.
  - reflexivity.
  - repeat (eapply served_next;
            [reflexivity | reflexivity | reflexivity | reflexivity
             | vm_compute; reflexivity |]).
    apply served_none.
Defined.

Lemma page_fault_aborts_run_witness :
  get_contracts_by_inn sample_inn world_page_two_down
  = (Raise (RequestException "timed out"),
     log_requests ([supplier_url sample_inn; contracts_url sample_inn]
                   ++ pages_upto (contracts_url sample_inn) 2) world_page_two_down).
Proof.
  refine (page_fault_aborts_run sample_inn world_page_two_down
            (PStr "ООО Ромашка") (PInt 250) (PInt 100) 3 1
            [[entry_ads; entry_bare]] (RequestException "timed out") _ _ _ _ _ _).
  - apply sample_supplier_known. reflexivity.
  - apply (sample_contracts_header _ _ _ sample_page). reflexivity.
  - reflexivity.
  - vm_compute. lia.
  - eapply served_next;
      [reflexivity | reflexivity | reflexivity | reflexivity
       | vm_compute; reflexivity |].
    apply served_none.
  - apply page_request_fault. reflexivity.
Defined.

Lemma zero_page_size_raises_witness :
  get_contracts_by_inn sample_inn world_zero_perpage
  = (Raise ZeroDivisionError,
     log_requests [supplier_url sample_inn; contracts_url sample_inn]
                  world_zero_perpage).
Proof.
  refine (zero_page_size_raises sample_inn world_zero_perpage
            (PStr "ООО Ромашка") (PInt 250) (PInt 0) (inject_Z 0) _ _ _ _ _);
    try reflexivity.
  - apply sample_supplier_known. reflexivity.
  - apply (sample_contracts_header _ _ _ []). reflexivity.
  - right. split; reflexivity.
Defined.

Lemma non_numeric_header_raises_witness :
  get_contracts_by_inn sample_inn world_text_total
  = (Raise TypeError,
     log_requests [supplier_url sample_inn; contracts_url sample_inn]
                  world_text_total).
Proof.
  refine (non_numeric_header_raises sample_inn world_text_total
            (PStr "ООО Ромашка") (PStr "250") (PInt 100) _ _ _).
  - apply sample_supplier_known. reflexivity.
  - eexists _, _, _. split; [reflexivity|].
    repeat (split; [reflexivity|]). reflexivity.
  - left. reflexivity.
Defined.

Lemma no_pages_no_entries_witness :
  get_contracts_by_inn sample_inn world_no_contracts
  = (Ok (Triple (PStr "ООО Ромашка") (PInt 0) []),
     log_requests [supplier_url sample_inn; contracts_url sample_inn]
                  world_no_contracts).
Proof.
  refine (no_pages_no_entries sample_inn world_no_contracts
            (PStr "ООО Ромашка") (PInt 0) (PInt 50) 0 _ _ _ _).
  - apply sample_supplier_known. reflexivity.
  - apply (sample_contracts_header _ _ _ []). reflexivity.
  - reflexivity.
  - lia.
Defined.

Lemma name_without_phrase_fetches_witness :
  (exists k,
      sent (snd (get_contracts_by_inn sample_inn world_fetch_down))
      = (sent world_fetch_down
         ++ [supplier_url sample_inn; contracts_url sample_inn]
         ++ pages_upto (contracts_url sample_inn) k)%list)
  /\ (forall v, fst (get_contracts_by_inn sample_inn world_fetch_down)
                <> Ok (Text v)).
Proof.
  refine (name_without_phrase_fetches sample_inn world_fetch_down
            (mkResponse 200
               (Ok (supplier_payload [("allNames", PList [PStr "ООО Ромашка"])])))
            _ "ООО Ромашка" _ _ _ _ _);
    try reflexivity.
  - discriminate.
  - intros H. apply str_contains_spec in H. vm_compute in H. discriminate H.
Defined.

(** ** Entries and contracts *)

Lemma product_matches_dict (okpd_ref okpd2_ref p : pyval) (hit : bool) :
  product_matches okpd_ref okpd2_ref p = Ok hit -> exists d, p = PDict d.
Proof.
  destruct p; try discriminate. eauto.
Qed.

Lemma iter_holds_dict (products : pyval) (items : list pyval)
    (d : list (string * pyval)) :
  py_iter products = Ok items ->
  In (PDict d) items ->
  products = PList items.
Proof.
  destruct products as [| | | |s|l|e]; try discriminate; cbn [py_iter];
    intros H Hin; injection H as <-.
  - apply in_map_iff in Hin. destruct Hin as (x & Hx & _). discriminate Hx.
  - reflexivity.
  - apply in_map_iff in Hin. destruct Hin as (x & Hx & _). discriminate Hx.
Qed.

Lemma media_contract_regnum (c p : list (string * pyval)) (products : list pyval)
    (entry : pyval) :
  media_contract (PDict c) (PDict p) (PList products) = Ok entry ->
  exists regnum,
    lookup "regNum" c = Some (PStr regnum)
    /\ entry = summary_of c p regnum (List.length products).
Proof.
  intros He. destruct (lookup "regNum" c) as [v|] eqn:Hreg.
  - destruct v as [| | | |regnum| |];
      try (unfold media_contract, py_get, py_getitem in He; rewrite Hreg in He;
           destruct (lookup "price" c), (lookup "sum" p), (lookup "name" p);
           discriminate He).
    rewrite (media_contract_shaped c p products regnum Hreg) in He.
    injection He as <-. eauto.
  - unfold media_contract, py_get, py_getitem in He. rewrite Hreg in He.
    destruct (lookup "price" c), (lookup "sum" p), (lookup "name" p);
      discriminate He.
Qed.

Lemma contract_pick_entry (okpd_ref okpd2_ref contract entry : pyval) :
  contract_pick okpd_ref okpd2_ref contract (Some entry) ->
  exists c products p regnum,
    contract = PDict c
    /\ lookup "products" c = Some (PList products)
    /\ In (PDict p) products
    /\ lookup "regNum" c = Some (PStr regnum)
    /\ entry = summary_of c p regnum (List.length products).
Proof.
  intros Hpick.
  inversion Hpick as [|products before product after entry' Hps Hit _ Hhit He _ _];
    subst.
  destruct (product_matches_dict _ _ _ _ Hhit) as [p ->].
  assert (Hin : In (PDict p) (before ++ PDict p :: after)) by apply in_elt.
  rewrite (iter_holds_dict products _ p Hit Hin) in *.
  destruct contract as [| | | | | |c]; try discriminate Hps.
  unfold py_getitem in Hps.
  destruct (lookup "products" c) as [v|] eqn:Hlookup; [|discriminate].
  injection Hps as ->.
  destruct (media_contract_regnum c p _ entry He) as (regnum & Hreg & ->).
  exists c, (before ++ PDict p :: after)%list, p, regnum. auto.
Qed.

Lemma kept_from_pick (R : pyval -> option pyval -> Prop) (items : list pyval)
    (picks : list (option pyval)) (entry : pyval) :
  Forall2 R items picks ->
  In entry (kept picks) ->
  exists contract, In contract items /\ R contract (Some entry).
Proof.
  induction 1 as [|contract pick items picks Hpick _ IH]; cbn; [contradiction|].
  intros Hin. apply in_app_or in Hin. destruct Hin as [Hin|Hin].
  - destruct pick as [entry'|]; [|contradiction].
    destruct Hin as [->|[]]. exists contract. auto.
  - destruct (IH Hin) as (c & Hc & HR). exists c. auto.
Qed.

(** X11.  Every entry that [filter_media_contracts] returns stems from a
    contract record of the page that has a registry number (a text) and a
    product list holding a product record: its URL is the base URL followed
    by that number, its product count is the length of that list (so at
    least one), and its price and description fields are those of the
    records or a dash.  No assumption is made on the page beyond the call
    returning. *)
Theorem returned_entries_shape (contracts : pyval) (w : world) (out : list pyval) :
  fst (filter_media_contracts contracts w) = Ok out ->
  exists items,
    py_iter contracts = Ok items
    /\ Forall (fun entry =>
                 exists c products p regnum,
                   In (PDict c) items
                   /\ lookup "products" c = Some (PList products)
                   /\ In (PDict p) products
                   /\ lookup "regNum" c = Some (PStr regnum)
                   /\ entry = entry_of regnum (or_dash (lookup "price" c))
                                       (or_dash (lookup "name" p))
                                       (or_dash (lookup "sum" p))
                                       (Z.of_nat (List.length products))
                   /\ 1 <= Z.of_nat (List.length products))
              out.
Proof.
  rewrite filter_media_contracts_run. cbn [fst]. intros H.
  destruct (files w "okpd_smi.json") as [r1|]; [|discriminate].
  destruct (files w "okpd2_smi.json") as [r2|]; [|discriminate].
  cbn [obind] in H.
  destruct (py_iter contracts) as [items|]; [|discriminate].
  cbn [obind] in H. apply scan_contracts_picks in H.
  destruct H as (picks & Hall & ->).
  exists items. split; [reflexivity|].
  apply Forall_forall. intros entry Hin.
  destruct (kept_from_pick _ items picks entry Hall Hin) as (contract & Hc & Hpick).
  destruct (contract_pick_entry r1 r2 contract entry Hpick)
    as (c & products & p & regnum & -> & Hps & Hp & Hreg & ->).
  exists c, products, p, regnum. repeat (split; [assumption|]).
  split; [reflexivity|].
  destruct products; [contradiction | cbn [List.length]; lia].
Qed.

Lemma returned_entries_shape_witness :
  exists items,
    py_iter (PList sample_page) = Ok items
    /\ Forall (fun entry =>
                 exists c products p regnum,
                   In (PDict c) items
                   /\ lookup "products" c = Some (PList products)
                   /\ In (PDict p) products
                   /\ lookup "regNum" c = Some (PStr regnum)
                   /\ entry = entry_of regnum (or_dash (lookup "price" c))
                                       (or_dash (lookup "name" p))
                                       (or_dash (lookup "sum" p))
                                       (Z.of_nat (List.length products))
                   /\ 1 <= Z.of_nat (List.length products))
              [entry_ads; entry_bare].
Proof.
  apply (returned_entries_shape (PList sample_page) world_page).
  vm_compute. reflexivity.
Defined.

(** ** Which products match *)

Lemma py_eq_plain (v x : pyval) :
  plain_code v -> py_eq v x = true <-> x = v.
Proof.
  intros [->|[s ->]].
  - apply py_eq_None.
  - destruct x; cbn; try (split; [discriminate | intros H; discriminate H]).
    rewrite String.eqb_eq. split; [intros -> | intros H; injection H as ->];
      reflexivity.
Qed.

Lemma existsb_plain (v : pyval) (l : list pyval) :
  plain_code v -> existsb (py_eq v) l = true <-> In v l.
Proof.
  intros Hv. rewrite existsb_exists. split.
  - intros (x & Hin & Heq). apply (py_eq_plain v x Hv) in Heq. now subst.
  - intros Hin. exists v. split; [exact Hin|]. apply (py_eq_plain v v Hv).
    reflexivity.
Qed.

Lemma product_matches_codes (okpd_ref okpd2_ref : pyval) (d : list (string * pyval)) :
  product_shaped (PDict d) ->
  product_matches okpd_ref okpd2_ref (PDict d)
  = obind (py_in (code_of d "OKPD") okpd_ref)
          (fun hit => if hit : bool then Ok true
                      else py_in (code_of d "OKPD2") okpd2_ref).
Proof.
  intros (d' & Hd & H1 & H2). injection Hd as <-.
  unfold product_matches, code_of, py_get at 1 3.
  destruct (lookup "OKPD" d) as [v1|] eqn:Hv1.
  - destruct (H1 v1 eq_refl) as [c1 ->]. cbn [obind py_get].
    destruct (lookup "OKPD2" d) as [v2|] eqn:Hv2.
    + destruct (H2 v2 eq_refl) as [c2 ->]. cbn [obind py_get].
      destruct (lookup "code" c1), (lookup "code" c2); reflexivity.
    + cbn [obind py_get lookup]. destruct (lookup "code" c1); reflexivity.
  - cbn [obind py_get lookup].
    destruct (lookup "OKPD2" d) as [v2|] eqn:Hv2.
    + destruct (H2 v2 eq_refl) as [c2 ->]. cbn [obind py_get].
      destruct (lookup "code" c2); reflexivity.
    + reflexivity.
Qed.

(** X12.  With reference lists on hand, a product record whose codes are
    texts (or missing) matches exactly when its OKPD code is an item of the
    first list or its OKPD2 code is an item of the second: codes are
    compared whole, a listed code does not match a longer or shorter one. *)
Theorem product_matches_listed_codes
    (l1 l2 : list pyval) (d : list (string * pyval)) :
  product_shaped (PDict d) ->
  plain_code (code_of d "OKPD") ->
  plain_code (code_of d "OKPD2") ->
  exists hit,
    product_matches (PList l1) (PList l2) (PDict d) = Ok hit
    /\ (hit = true <-> In (code_of d "OKPD") l1 \/ In (code_of d "OKPD2") l2).
Proof.
  intros Hshape Hc1 Hc2. rewrite (product_matches_codes _ _ d Hshape).
  cbn [py_in obind].
  pose proof (existsb_plain _ l1 Hc1) as E1.
  pose proof (existsb_plain _ l2 Hc2) as E2.
  destruct (existsb (py_eq (code_of d "OKPD")) l1).
  - exists true. split; [reflexivity|]. split; [|reflexivity].
    intros _. left. apply E1. reflexivity.
  - exists (existsb (py_eq (code_of d "OKPD2")) l2). split; [reflexivity|].
    rewrite E2. split; [auto|]. intros [H|H]; [|exact H].
    apply E1 in H. discriminate H.
Qed.

Lemma product_matches_listed_codes_witness :
  exists hit,
    product_matches (PList [PStr "22.12"; PStr "22.13"]) (PList [PStr "58.13"])
                    (PDict [("name", PStr "Реклама");
                            ("OKPD", PDict [("code", PStr "22.12.1")])])
    = Ok hit
    /\ (hit = true
        <-> In (PStr "22.12.1") [PStr "22.12"; PStr "22.13"]
            \/ In PNone [PStr "58.13"]).
Proof.
  apply (product_matches_listed_codes [PStr "22.12"; PStr "22.13"] [PStr "58.13"]
           [("name", PStr "Реклама"); ("OKPD", PDict [("code", PStr "22.12.1")])]).
  - eexists. split; [reflexivity|]. split; intros v Hv.
    + injection Hv as <-. eexists. reflexivity.
    + discriminate Hv.
  - right. eexists. reflexivity.
  - left. reflexivity.
Defined.

(** ** Contracts that add nothing, contracts that stop the filter *)

Lemma scan_contracts_empty (okpd_ref okpd2_ref : pyval) (contracts acc : list pyval) :
  Forall (fun c => exists d, c = PDict d
                             /\ lookup "products" d = Some (PList [])) contracts ->
  scan_contracts okpd_ref okpd2_ref contracts acc = Ok acc.
Proof.
  induction 1 as [|c contracts (d & -> & Hps) _ IH]; cbn [scan_contracts];
    [reflexivity|].
  unfold scan_contract, py_getitem. rewrite Hps. cbn. exact IH.
Qed.

(** X13.  A page whose contracts all have an empty product list yields the
    empty list, for all contents of the two reference files (which need
    only load), and whether or not the contracts carry a registry number
    or a price. *)
Theorem empty_product_lists_give_nothing
    (contracts : list pyval) (w : world) (okpd_ref okpd2_ref : pyval) :
  files w "okpd_smi.json" = Ok okpd_ref ->
  files w "okpd2_smi.json" = Ok okpd2_ref ->
  Forall (fun c => exists d, c = PDict d
                             /\ lookup "products" d = Some (PList [])) contracts ->
  filter_media_contracts (PList contracts) w = (Ok [], w).
Proof.
  intros H1 H2 Hall. rewrite filter_media_contracts_run, H1, H2.
  cbn [obind py_iter]. rewrite (scan_contracts_empty _ _ _ _ Hall). reflexivity.
Qed.

Lemma empty_product_lists_give_nothing_witness :
  filter_media_contracts (PList [contract_empty; contract_empty]) world_broken_refs
  = (Ok [], world_broken_refs).
Proof.
  apply (empty_product_lists_give_nothing _ _ (PInt 1) (PInt 2));
    try reflexivity.
  repeat constructor; eexists; split; reflexivity.
Defined.

(** X14.  A contract record without a product list stops the filter with
    [KeyError('products')], whatever was gathered from the contracts before
    it and whatever follows it. *)
Theorem missing_products_raises
    (front back : list pyval) (d : list (string * pyval)) (w : world)
    (out : list pyval) :
  fst (filter_media_contracts (PList front) w) = Ok out ->
  lookup "products" d = None ->
  fst (filter_media_contracts (PList (front ++ PDict d :: back)) w)
  = Raise (KeyError "products").
Proof.
  rewrite !filter_media_contracts_run. cbn [fst]. intros Hfront Hps.
  destruct (files w "okpd_smi.json") as [r1|]; [|discriminate].
  destruct (files w "okpd2_smi.json") as [r2|]; [|discriminate].
  cbn [obind py_iter] in *. rewrite scan_contracts_app, Hfront.
  cbn [obind scan_contracts]. unfold scan_contract, py_getitem.
  rewrite Hps. reflexivity.
Qed.

Lemma missing_products_raises_witness :
  fst (filter_media_contracts
         (PList ([contract_ads] ++ contract_no_products :: [contract_bare]))
         world_page)
  = Raise (KeyError "products").
Proof.
  apply (missing_products_raises [contract_ads]
           [contract_bare]
           [("regNum", PStr "0173100004515000126"); ("price", PInt 10)]
           world_page [entry_ads]).
  - vm_compute. reflexivity.
  - reflexivity.
Defined.

(** X15.  A contract record with a matching product and no registry number
    stops the filter with [KeyError('regNum')], whatever was gathered
    before it and whatever follows it. *)
Theorem missing_regnum_raises
    (front back : list pyval) (d : list (string * pyval))
    (before : list pyval) (p : pyval) (after : list pyval)
    (w : world) (okpd_ref okpd2_ref : pyval) (out : list pyval) :
  files w "okpd_smi.json" = Ok okpd_ref ->
  files w "okpd2_smi.json" = Ok okpd2_ref ->
  fst (filter_media_contracts (PList front) w) = Ok out ->
  lookup "products" d = Some (PList (before ++ p :: after)) ->
  Forall (misses okpd_ref okpd2_ref) before ->
  product_matches okpd_ref okpd2_ref p = Ok true ->
  lookup "regNum" d = None ->
  fst (filter_media_contracts (PList (front ++ PDict d :: back)) w)
  = Raise (KeyError "regNum").
Proof.
  intros H1 H2 Hfront Hps Hbefore Hhit Hreg.
  rewrite filter_media_contracts_run in Hfront |- *. cbn [fst] in *.
  rewrite H1, H2 in *. cbn [obind py_iter] in *.
  rewrite scan_contracts_app, Hfront. cbn [obind scan_contracts].
  unfold scan_contract, py_getitem at 1. rewrite Hps. cbn [obind py_iter].
  rewrite (scan_products_first okpd_ref okpd2_ref _ _ before p after Hbefore Hhit).
  destruct (product_matches_dict _ _ _ _ Hhit) as [dp ->].
  unfold media_contract, py_get, py_getitem. rewrite Hreg.
  destruct (lookup "price" d), (lookup "sum" dp), (lookup "name" dp);
    reflexivity.
Qed.

Lemma missing_regnum_raises_witness :
  fst (filter_media_contracts
         (PList ([contract_ads] ++ contract_no_regnum :: [])) world_page)
  = Raise (KeyError "regNum").
Proof.
  apply (missing_regnum_raises [contract_ads] []
           [("price", PInt 10);
            ("products", PList [PDict [("OKPD", PDict [("code", PStr "22.13")])]])]
           [] (PDict [("OKPD", PDict [("code", PStr "22.13")])]) []
           world_page
           (PList [PStr "22.12"; PStr "22.13"]) (PList [PStr "58.13"; PStr "58.14"])
           [entry_ads]);
    try (vm_compute; reflexivity).
  constructor.
Defined.

(** X16.  A successful lookup whose first name is a null is reported like a
    failed one: [get_contracts_by_inn] returns the generic failure text,
    although nothing was raised or printed, and sends no contracts
    request. *)
Theorem null_name_reads_as_failure
    (inn : string) (w : world) (r : response) (data : pyval) :
  remote w (sent w) (supplier_url inn) = Ok r ->
  status_code r <> 404 ->
  json r = Ok data ->
  first_name data = Ok PNone ->
  get_contracts_by_inn inn w
  = (Ok (Text (PStr something_went_wrong)), log_request (supplier_url inn) w).
Proof.
  intros Hr Hs Hj Hn. unfold get_contracts_by_inn, bind.
  rewrite (get_supplier_name_found inn w r data PNone Hr Hs Hj Hn).
  reflexivity.
Qed.

Lemma null_name_reads_as_failure_witness :
  get_contracts_by_inn sample_inn world_null_name
  = (Ok (Text (PStr "Что-то пошло не так")),
     log_request (supplier_url sample_inn) world_null_name).
Proof.
  refine (null_name_reads_as_failure sample_inn world_null_name
            (mkResponse 200 (Ok (supplier_payload [("allNames", PList [PNone])])))
            _ _ _ _ _);
    try reflexivity.
  discriminate.
Defined.
